(** * InversifyJS container: a shallow embedding of [src/container/container.ts]

    The container facade is translated from the TypeScript source.  The
    classes it calls but that live in other files of the repository
    (the binding record, the [Lookup] registry, the planner and the resolver)
    are modelled from the specification; each such definition says so. *)

From Stdlib Require Import List String Bool Arith ZArith Lia.
Import ListNotations.
Set Warnings "-register-all".
Local Open Scope string_scope.
Local Open Scope list_scope.

(* ================================================================== *)
(** * JavaScript values *)
(* ================================================================== *)

Module JS.

(** Objects, arrays and functions carry the reference that [===] compares. *)
Inductive Value : Type :=
| VUndefined
| VNull
| VBoolean (b : bool)
| VNumber (z : Z)
| VString (s : string)
| VSymbol (ref : nat)
| VObject (ref : nat) (props : list (string * Value))
| VArray (ref : nat) (items : list Value)
| VFunction (ref : nat).

(** The [typeof] operator. *)
Definition typeof (v : Value) : string :=
  match v with
  | VUndefined => "undefined"
  | VNull => "object"
  | VBoolean _ => "boolean"
  | VNumber _ => "number"
  | VString _ => "string"
  | VSymbol _ => "symbol"
  | VObject _ _ => "object"
  | VArray _ _ => "object"
  | VFunction _ => "function"
  end.

(** The [===] operator. *)
Definition strictEquals (a b : Value) : bool :=
  match a, b with
  | VUndefined, VUndefined => true
  | VNull, VNull => true
  | VBoolean x, VBoolean y => Bool.eqb x y
  | VNumber x, VNumber y => Z.eqb x y
  | VString x, VString y => String.eqb x y
  | VSymbol x, VSymbol y => Nat.eqb x y
  | VObject x _, VObject y _ => Nat.eqb x y
  | VArray x _, VArray y _ => Nat.eqb x y
  | VFunction x, VFunction y => Nat.eqb x y
  | _, _ => false
  end.

(** [result === undefined || result === null] *)
Definition isAbsent (v : Value) : bool :=
  strictEquals v VUndefined || strictEquals v VNull.

Fixpoint lookupProp (name : string) (props : list (string * Value)) : Value :=
  match props with
  | [] => VUndefined
  | (k, v) :: rest => if String.eqb k name then v else lookupProp name rest
  end.

(** What people mean by "an object": a value with properties of its own.
    [typeof null] is ["object"] too, but [null] has no properties. *)
Definition isObject (v : Value) : bool :=
  match v with
  | VObject _ _ | VArray _ _ => true
  | _ => false
  end.

End JS.

Import JS.

(* ================================================================== *)
(** * Service identifiers *)
(* ================================================================== *)

(** [interfaces.ServiceIdentifier<T>]: a string, a symbol or a class. *)
Inductive ServiceIdentifier : Type :=
| IdString (s : string)
| IdSymbol (ref : nat) (description : string)
| IdNewable (ref : nat) (name : string).

Definition ServiceIdentifier_eqb (a b : ServiceIdentifier) : bool :=
  match a, b with
  | IdString x, IdString y => String.eqb x y
  | IdSymbol r d, IdSymbol r' d' => Nat.eqb r r' && String.eqb d d'
  | IdNewable r n, IdNewable r' n' => Nat.eqb r r' && String.eqb n n'
  | _, _ => false
  end.

(** Modelled from the spec: [utils/serialization.getServiceIdentifierAsString],
    the "string/identifier pretty-printing for diagnostics" of section 1. *)
Definition getServiceIdentifierAsString (id : ServiceIdentifier) : string :=
  match id with
  | IdString s => s
  | IdSymbol _ d => String.append "Symbol(" (String.append d ")")
  | IdNewable _ n => n
  end.

(* ================================================================== *)
(** * Errors and results *)
(* ================================================================== *)

(** Modelled from the spec: the messages of [constants/error_msgs], one
    constructor for each that the container, the registry and the planner
    raise (section 7); a planner error names the identifier of the request it
    turns down.  [TypeError] is the runtime's own and [Thrown] is whatever
    user code (a factory, a constructor) raises.  [PLAN_DEPTH_EXHAUSTED] is
    not an error of the program: it is what the planner of this development
    answers when its recursion budget is used up, and [plan_never_exhausts]
    shows that the budget [plan] takes is enough. *)
Inductive Error : Type :=
| KEY_NOT_FOUND
| CANNOT_UNBIND (id : string)
| NO_MORE_SNAPSHOTS_AVAILABLE
| INVALID_MIDDLEWARE_RETURN
| KERNEL_OPTIONS_MUST_BE_AN_OBJECT
| KERNEL_OPTIONS_INVALID_DEFAULT_SCOPE
| NOT_REGISTERED (id : ServiceIdentifier)
| AMBIGUOUS_MATCH (id : ServiceIdentifier)
| CIRCULAR_DEPENDENCY (path : list ServiceIdentifier)
| INVALID_BINDING_TYPE (id : ServiceIdentifier)
| TypeError (msg : string)
| Thrown (v : Value)
| PLAN_DEPTH_EXHAUSTED.

(** Modelled from the spec: the error kinds of section 7. *)
Inductive ErrorKind : Type :=
| NotFoundError
| AmbiguousMatchError
| CircularDependencyError
| InvalidConfigurationError
| EmptySnapshotStackError
| OtherError.

(** Modelled from the spec: which kind each message belongs to (section 7:
    NotFoundError is "unknown service identifier, or unbind target absent",
    InvalidConfigurationError is "malformed container options, malformed
    middleware return"). *)
Definition kindOf (e : Error) : ErrorKind :=
  match e with
  | KEY_NOT_FOUND | CANNOT_UNBIND _ | NOT_REGISTERED _ => NotFoundError
  | AMBIGUOUS_MATCH _ => AmbiguousMatchError
  | CIRCULAR_DEPENDENCY _ => CircularDependencyError
  | INVALID_MIDDLEWARE_RETURN
  | KERNEL_OPTIONS_MUST_BE_AN_OBJECT
  | KERNEL_OPTIONS_INVALID_DEFAULT_SCOPE => InvalidConfigurationError
  | NO_MORE_SNAPSHOTS_AVAILABLE => EmptySnapshotStackError
  | INVALID_BINDING_TYPE _ | TypeError _ | Thrown _ | PLAN_DEPTH_EXHAUSTED => OtherError
  end.

Inductive Result (A : Type) : Type :=
| Ok (a : A)
| Err (e : Error).

Arguments Ok {A} a.
Arguments Err {A} e.

Definition bindR {A B : Type} (r : Result A) (k : A -> Result B) : Result B :=
  match r with
  | Ok a => k a
  | Err e => Err e
  end.

Notation "x <- r ;; k" := (bindR r (fun x => k))
  (at level 61, r at next level, right associativity).

(** [xs.map(f)] where [f] may throw: the first failure aborts the loop. *)
Definition mapR {A B : Type} (f : A -> Result B) : list A -> Result (list B) :=
  fix go (xs : list A) : Result (list B) :=
    match xs with
    | [] => Ok []
    | x :: rest =>
        y <- f x ;;
        ys <- go rest ;;
        Ok (y :: ys)
    end.

(** Reading a property: [null] and [undefined] have none to read; own
    properties only (no prototype chain, no getters). *)
Definition getProperty (v : Value) (name : string) : Result Value :=
  match v with
  | VUndefined | VNull => Err (TypeError "Cannot read property of null or undefined")
  | VObject _ props => Ok (lookupProp name props)
  | _ => Ok VUndefined
  end.

(** What a call into user code (a factory, a constructor) comes back with. *)
Inductive Outcome : Type :=
| Returns (v : Value)
| Throws (v : Value).

Definition run (o : Outcome) : Result Value :=
  match o with
  | Returns v => Ok v
  | Throws v => Err (Thrown v)
  end.

(** The [(T|T[])] that the get-style calls return. *)
Inductive Resolved : Type :=
| Single (v : Value)
| Multiple (vs : list Value).

(** [result === undefined || result === null]; an array is neither. *)
Definition isAbsentResult (r : Resolved) : bool :=
  match r with
  | Single v => isAbsent v
  | Multiple _ => false
  end.

Definition isErr {A : Type} (r : Result A) : bool :=
  match r with
  | Ok _ => false
  | Err _ => true
  end.

(* ================================================================== *)
(** * Literal types and metadata keys *)
(* ================================================================== *)

Module BindingScopeEnum.

(** Modelled from the spec: [BindingScopeEnum] of [constants/literal_types].
    The scopes are those of the data model (section 3); the container source
    names [Singleton] and [Transient] only. *)
Inductive t : Type := Singleton | Transient | Request.

(** Modelled from the spec: the string literal each member stands for at run
    time. *)
Definition value (s : t) : Value :=
  match s with
  | Singleton => VString "Singleton"
  | Transient => VString "Transient"
  | Request => VString "Request"
  end.

Definition eqb (a b : t) : bool :=
  match a, b with
  | Singleton, Singleton | Transient, Transient | Request, Request => true
  | _, _ => false
  end.

End BindingScopeEnum.

Module TargetTypeEnum.

(** Modelled from the spec: [TargetTypeEnum] of [constants/literal_types];
    [Variable_] is its member [Variable]. *)
Inductive t : Type := ConstructorArgument | ClassProperty | Variable_.

End TargetTypeEnum.

Module METADATA_KEY.

(** Modelled from the spec: [constants/metadata_keys.NAMED_TAG], the reserved
    "named" tag of section 3. *)
Definition NAMED_TAG : Value := VString "named".

End METADATA_KEY.

(* ================================================================== *)
(** * Targets and bindings *)
(* ================================================================== *)

Module Target.

(** Modelled from the spec: the Target Descriptor of section 3 (service
    identifier, requested type, tags), which the planner builds from the
    arguments of a request. *)
Record t : Type := mk {
  serviceIdentifier : ServiceIdentifier;
  targetType : TargetTypeEnum.t;
  isArray : bool;
  tags : list (Value * Value)
}.

(** The target carries the tag [key] with the value [value]. *)
Definition hasTag (key value : Value) (target : t) : bool :=
  existsb (fun kv => strictEquals (fst kv) key && strictEquals (snd kv) value)
          (tags target).

End Target.

(** Modelled from the spec: a class given to a to-type binding, with the
    dependency metadata recorded for it ([dependenciesOf(type)] of section 9)
    and what calling its constructor with the injected values gives. *)
Record Newable : Type := mkNewable {
  className : string;
  dependencies : list Target.t;
  construct : list Resolved -> Outcome
}.

(** Modelled from the spec: the construction strategies of section 3: a
    constant, a factory (its outcome when invoked) or a type to instantiate. *)
Inductive Strategy : Type :=
| Constant (v : Value)
| Factory (make : Outcome)
| ToType (implementationType : Newable).

Module Binding.

(** Modelled from the spec: the Binding Record of section 3
    ([bindings/binding.ts] is not among the sources). *)
Record t : Type := mk {
  serviceIdentifier : ServiceIdentifier;
  scope : BindingScopeEnum.t;
  constructionStrategy : option Strategy;
  constraint : Target.t -> bool;
  cachedInstance : option Value;
  moduleId : option string
}.

(** Modelled from the spec: [new Binding(serviceIdentifier, defaultScope)].
    The binding has no strategy before the fluent syntax gives it one, and
    "a binding with no declared constraints matches any target" (4.2). *)
Definition new (id : ServiceIdentifier) (defaultScope : BindingScopeEnum.t) : t :=
  {| serviceIdentifier := id;
     scope := defaultScope;
     constructionStrategy := None;
     constraint := fun _ => true;
     cachedInstance := None;
     moduleId := None |}.

(** Modelled from the spec: [clone()] of section 4.2: "a new record with
    identical identifier/scope/strategy/constraint but a cleared instance
    cache". *)
Definition clone (b : t) : t :=
  {| serviceIdentifier := serviceIdentifier b;
     scope := scope b;
     constructionStrategy := constructionStrategy b;
     constraint := constraint b;
     cachedInstance := None;
     moduleId := moduleId b |}.

(** [binding.moduleId = moduleId] *)
Definition setModuleId (m : string) (b : t) : t :=
  {| serviceIdentifier := serviceIdentifier b;
     scope := scope b;
     constructionStrategy := constructionStrategy b;
     constraint := constraint b;
     cachedInstance := cachedInstance b;
     moduleId := Some m |}.

(** [item.moduleId === expected] *)
Definition hasModuleId (expected : string) (b : t) : bool :=
  match moduleId b with
  | Some m => String.eqb m expected
  | None => false
  end.

End Binding.

(* ================================================================== *)
(** * The binding registry *)
(* ================================================================== *)

Module Lookup.

(** Modelled from the spec: the [Lookup] of section 4.1 ([container/lookup.ts]
    is not among the sources): a multi-map from service identifier to the
    ordered list of its bindings, keys kept in insertion order. *)
Definition t : Type := list (ServiceIdentifier * list Binding.t).

(** Modelled from the spec: [new Lookup()]. *)
Definition empty : t := [].

(** Modelled from the spec: [add(id, binding)] "appends to the ordered list
    for id, creating the list if absent; never fails". *)
Fixpoint add (id : ServiceIdentifier) (b : Binding.t) (l : t) : t :=
  match l with
  | [] => [(id, [b])]
  | (k, bs) :: rest =>
      if ServiceIdentifier_eqb k id then (k, bs ++ [b]) :: rest
      else (k, bs) :: add id b rest
  end.

(** Modelled from the spec: [hasKey(id)], "existence check, never fails". *)
Definition hasKey (id : ServiceIdentifier) (l : t) : bool :=
  existsb (fun kv => ServiceIdentifier_eqb (fst kv) id) l.

(** The list stored under [id], if the key is there. *)
Fixpoint find (id : ServiceIdentifier) (l : t) : option (list Binding.t) :=
  match l with
  | [] => None
  | (k, bs) :: rest => if ServiceIdentifier_eqb k id then Some bs else find id rest
  end.

(** Modelled from the spec: [get(id)] "returns the ordered list for id; fails
    with NotFoundError if id is absent". *)
Definition get (id : ServiceIdentifier) (l : t) : Result (list Binding.t) :=
  match find id l with
  | Some bs => Ok bs
  | None => Err KEY_NOT_FOUND
  end.

(** Modelled from the spec: [remove(id)] "deletes the entire list for id;
    fails with NotFoundError if absent". *)
Definition remove (id : ServiceIdentifier) (l : t) : Result t :=
  if hasKey id l
  then Ok (filter (fun kv => negb (ServiceIdentifier_eqb (fst kv) id)) l)
  else Err KEY_NOT_FOUND.

(** Modelled from the spec: [removeByCondition(predicate)] "removes, across
    all keys, every binding for which predicate(binding) holds; empties (but
    does not delete) keys that become list-empty". *)
Definition removeByCondition (condition : Binding.t -> bool) (l : t) : t :=
  map (fun kv => (fst kv, filter (fun b => negb (condition b)) (snd kv))) l.

(** Modelled from the spec: [traverse(visitor)] "calls visitor(key, list) for
    every key in insertion order".  The visitor acts on a state [S] of its
    own (in [merge]: the registry it fills). *)
Definition traverse {S : Type}
  (func : ServiceIdentifier -> list Binding.t -> S -> S) (l : t) (s : S) : S :=
  fold_left (fun acc kv => func (fst kv) (snd kv) acc) l s.

(** Modelled from the spec: [clone()], "deep copy: every contained Binding
    Record is itself cloned". *)
Definition clone (l : t) : t :=
  map (fun kv => (fst kv, map Binding.clone (snd kv))) l.

(** The bindings registered under [id], none when the key is absent. *)
Definition bindingsOf (id : ServiceIdentifier) (l : t) : list Binding.t :=
  match find id l with
  | Some bs => bs
  | None => []
  end.

(** Every binding of the registry, in traversal order. *)
Definition allBindings (l : t) : list Binding.t := List.concat (map snd l).

(** The keys, in insertion order. *)
Definition keys (l : t) : list ServiceIdentifier := map fst l.

(** [xs[n] = f(xs[n])] *)
Fixpoint updateNth {A : Type} (n : nat) (f : A -> A) (xs : list A) : list A :=
  match xs, n with
  | [], _ => []
  | x :: rest, O => f x :: rest
  | x :: rest, S n' => x :: updateNth n' f rest
  end.

(** Assignment through a reference to the [index]-th binding of [id]. *)
Fixpoint update (id : ServiceIdentifier) (index : nat)
  (f : Binding.t -> Binding.t) (l : t) : t :=
  match l with
  | [] => []
  | (k, bs) :: rest =>
      if ServiceIdentifier_eqb k id then (k, updateNth index f bs) :: rest
      else (k, bs) :: update id index f rest
  end.

End Lookup.

(* ================================================================== *)
(** * The planner *)
(* ================================================================== *)

(** What the planner reads of a container: its own registry, then those of
    its ancestors, nearest first. *)
Definition Registries : Type := list Lookup.t.

(** Modelled from the spec: the Plan Node of section 3: the target, the
    matched bindings, and for each of them the child nodes of its strategy's
    dependencies. *)
Inductive Request : Type :=
| mkRequest (target : Target.t) (matched : list (Binding.t * list Request)).

(** Modelled from the spec: the Resolution Context that [plan] returns, a
    plan rooted at the request of the call. *)
Record Context : Type := mkContext {
  rootRequest : Request
}.

(** The planner of section 4.4; [planning/planner.ts] is not among the
    sources. *)
Module Planner.

(** Modelled from the spec: step 1, "build a root Target Descriptor from the
    call arguments".  A tag is recorded when a key was passed. *)
Definition createTarget (isMultiInject : bool) (targetType : TargetTypeEnum.t)
  (serviceIdentifier : ServiceIdentifier) (key value : Value) : Target.t :=
  {| Target.serviceIdentifier := serviceIdentifier;
     Target.targetType := targetType;
     Target.isArray := isMultiInject;
     Target.tags := if strictEquals key VUndefined then [] else [(key, value)] |}.

(** Modelled from the spec: [createMockRequest(serviceIdentifier, key,
    value)], the "synthetic Target Descriptor" of the existence probes
    (section 4.6). *)
Definition createMockRequest (serviceIdentifier : ServiceIdentifier)
  (key value : Value) : Target.t :=
  {| Target.serviceIdentifier := serviceIdentifier;
     Target.targetType := TargetTypeEnum.Variable_;
     Target.isArray := false;
     Target.tags := [(key, value)] |}.

(** Modelled from the spec: step 2 on one registry, "look up candidate
    bindings for serviceIdentifier; if avoidConstraints is false, filter by
    constraint(target)". *)
Definition activeBindings (avoidConstraints : bool) (target : Target.t)
  (l : Lookup.t) : list Binding.t :=
  let candidates := Lookup.bindingsOf (Target.serviceIdentifier target) l in
  if avoidConstraints then candidates
  else filter (fun b => Binding.constraint b target) candidates.

(** Modelled from the spec: step 2 on the chain, "if none match locally,
    repeat the lookup against the parent container chain (walk upward until a
    match is found or the chain is exhausted)". *)
Fixpoint getBindings (avoidConstraints : bool) (target : Target.t)
  (chain : Registries) : list Binding.t :=
  match chain with
  | [] => []
  | l :: parents =>
      match activeBindings avoidConstraints target l with
      | [] => getBindings avoidConstraints target parents
      | bs => bs
      end
  end.

(** Modelled from the spec: "registered anywhere in the chain" (step 4). *)
Definition isRegistered (id : ServiceIdentifier) (chain : Registries) : bool :=
  existsb (Lookup.hasKey id) chain.

(** Modelled from the spec: steps 3 and 4, the cardinality policy.  One
    match: bound to it.  Several: ambiguous unless multi-inject, which takes
    them all.  None: multi-inject yields the empty list for an identifier
    that is registered; otherwise the request fails with the NotFoundError
    naming the identifier (a single-result request with no match fails,
    section 4.6). *)
Definition selectBindings (avoidConstraints : bool) (target : Target.t)
  (chain : Registries) : Result (list Binding.t) :=
  let id := Target.serviceIdentifier target in
  match getBindings avoidConstraints target chain with
  | [] =>
      if Target.isArray target && isRegistered id chain then Ok []
      else Err (NOT_REGISTERED id)
  | [b] => Ok [b]
  | bs => if Target.isArray target then Ok bs else Err (AMBIGUOUS_MATCH id)
  end.

(** Modelled from the spec: the identifier is "already open on the current
    path" (step 6). *)
Definition onPath (id : ServiceIdentifier) (path : list ServiceIdentifier) : bool :=
  existsb (ServiceIdentifier_eqb id) path.

(** Modelled from the spec: steps 2 to 6 for one request.  [path] holds the
    identifiers open on the active path, innermost first; each matched
    binding with a to-type strategy has one child planned per dependency,
    constraints applied.  [fuel] bounds the depth of the recursion. *)
Fixpoint planRequest (fuel : nat) (chain : Registries)
  (path : list ServiceIdentifier) (avoidConstraints : bool)
  (target : Target.t) : Result Request :=
  match fuel with
  | O => Err PLAN_DEPTH_EXHAUSTED
  | S fuel' =>
      let id := Target.serviceIdentifier target in
      if onPath id path then Err (CIRCULAR_DEPENDENCY (rev (id :: path)))
      else
        bs <- selectBindings avoidConstraints target chain ;;
        matched <- mapR (fun b =>
                     children <-
                       match Binding.constructionStrategy b with
                       | Some (ToType impl) =>
                           mapR (planRequest fuel' chain (id :: path) false)
                                (dependencies impl)
                       | _ => Ok []
                       end ;;
                     Ok (b, children)) bs ;;
        Ok (mkRequest target matched)
  end.

(** The keys of all the registries of the chain. *)
Definition allKeys (chain : Registries) : list ServiceIdentifier :=
  List.concat (map Lookup.keys chain).

(** Modelled from the spec: [plan(container, isMultiInject, targetType,
    serviceIdentifier, key, value, avoidConstraints)]; of the container it
    takes the registries.  A path never holds an identifier twice and holds
    registered identifiers only, so one more level than there are keys is
    depth enough. *)
Definition plan (container : Registries) (isMultiInject : bool)
  (targetType : TargetTypeEnum.t) (serviceIdentifier : ServiceIdentifier)
  (key value : Value) (avoidConstraints : bool) : Result Context :=
  let target := createTarget isMultiInject targetType serviceIdentifier key value in
  root <- planRequest (S (List.length (allKeys container))) container []
            avoidConstraints target ;;
  Ok (mkContext root).

End Planner.

(* ================================================================== *)
(** * The resolver *)
(* ================================================================== *)

(** The resolver of section 4.5; [resolution/resolver.ts] is not among the
    sources.  It is modelled for the values it returns: a singleton's cache
    is read, and filling it is an effect on the binding that the value
    returned by the same call does not depend on.  Values carry no history,
    so a request-scoped binding and a transient one resolve alike. *)
Module Resolver.

(** Modelled from the spec: one matched binding, given how to obtain the
    values of its children.  A singleton with a cached instance returns it
    "without re-invoking the construction strategy or re-resolving its
    children"; otherwise the strategy is applied, a to-type one to the
    resolved children. *)
Definition resolveBinding (b : Binding.t)
  (injections : Result (list Resolved)) : Result Value :=
  match Binding.scope b, Binding.cachedInstance b with
  | BindingScopeEnum.Singleton, Some cached => Ok cached
  | _, _ =>
      match Binding.constructionStrategy b with
      | None => Err (INVALID_BINDING_TYPE (Binding.serviceIdentifier b))
      | Some (Constant v) => Ok v
      | Some (Factory make) => run make
      | Some (ToType impl) =>
          args <- injections ;;
          run (construct impl args)
      end
  end.

(** Modelled from the spec: one plan node, depth first.  A multi-inject node
    resolves each matched binding "in the same order the Planner selected
    them" and returns the sequence; any other node resolves its binding. *)
Fixpoint resolveRequest (r : Request) : Result Resolved :=
  match r with
  | mkRequest target matched =>
      let resolveMatched (m : Binding.t * list Request) : Result Value :=
        let '(b, children) := m in
        resolveBinding b (mapR resolveRequest children) in
      if Target.isArray target then
        vs <- mapR resolveMatched matched ;;
        Ok (Multiple vs)
      else
        match matched with
        | [] => Err (TypeError "Cannot read property of undefined")
        | m :: _ =>
            v <- resolveMatched m ;;
            Ok (Single v)
        end
  end.

(** A matched binding with its planned children, resolved. *)
Definition resolveMatched (m : Binding.t * list Request) : Result Value :=
  resolveBinding (fst m) (mapR resolveRequest (snd m)).

(** Modelled from the spec: [resolve(context)]. *)
Definition resolve (context : Context) : Result Resolved :=
  resolveRequest (rootRequest context).

End Resolver.

(* ================================================================== *)
(** * Interfaces of the container *)
(* ================================================================== *)

Module NextArgs.

Record t : Type := mk {
  avoidConstraints : bool;
  contextInterceptor : Context -> Context;
  isMultiInject : bool;
  key : Value;
  serviceIdentifier : ServiceIdentifier;
  targetType : TargetTypeEnum.t;
  value : Value
}.

End NextArgs.

(** [interfaces.Next].  The terminal link closes over the container, whose
    registries change between calls, so a link receives the registries of the
    container at the time of the call next to the argument bundle. *)
Definition Next : Type := Registries -> NextArgs.t -> Result Resolved.

Definition Middleware : Type := Next -> Next.

Module ContainerSnapshot.

(** Modelled from the spec: "a saved (registry-clone, middleware) pair"
    (section 4.6); [container/container_snapshot.ts] is not among the
    sources. *)
Record t : Type := mk {
  bindings : Lookup.t;
  middleware : option Next
}.

(** Modelled from the spec: [ContainerSnapshot.of(bindings, middleware)]. *)
Definition of_ (bindings : Lookup.t) (middleware : option Next) : t :=
  mk bindings middleware.

End ContainerSnapshot.

Module ContainerOptions.

Record t : Type := mk {
  defaultScope : Value
}.

End ContainerOptions.

Module BindingToSyntax.

(** Modelled from the spec: the syntax object [new BindingToSyntax(binding)]
    of [syntax/binding_to_syntax].  Its [_binding] is a reference to the
    binding that sits in the registry: the identifier and the position in
    the list of that identifier. *)
Record t : Type := mk {
  refIdentifier : ServiceIdentifier;
  refIndex : nat
}.

(** Modelled from the spec: the fluent calls of section 6: a construction
    strategy, a scope override, a constraint. *)
Inductive Call : Type :=
| to (implementationType : Newable)
| toConstantValue (v : Value)
| toFactory (make : Outcome)
| inSingletonScope
| inTransientScope
| when (constraint : Target.t -> bool).

(** Modelled from the spec: what a fluent call assigns on the binding. *)
Definition applyCall (call : Call) (b : Binding.t) : Binding.t :=
  let withStrategy s :=
    Binding.mk (Binding.serviceIdentifier b) (Binding.scope b) (Some s)
               (Binding.constraint b) (Binding.cachedInstance b) (Binding.moduleId b) in
  let withScope s :=
    Binding.mk (Binding.serviceIdentifier b) s (Binding.constructionStrategy b)
               (Binding.constraint b) (Binding.cachedInstance b) (Binding.moduleId b) in
  match call with
  | to impl => withStrategy (ToType impl)
  | toConstantValue v => withStrategy (Constant v)
  | toFactory make => withStrategy (Factory make)
  | inSingletonScope => withScope BindingScopeEnum.Singleton
  | inTransientScope => withScope BindingScopeEnum.Transient
  | when p =>
      Binding.mk (Binding.serviceIdentifier b) (Binding.scope b)
                 (Binding.constructionStrategy b) p
                 (Binding.cachedInstance b) (Binding.moduleId b)
  end.

(** The calls chained on one syntax object, applied to the binding it
    refers to. *)
Definition configure (syntax : t) (calls : list Call) (l : Lookup.t) : Lookup.t :=
  fold_left (fun acc call =>
               Lookup.update (refIdentifier syntax) (refIndex syntax) (applyCall call) acc)
            calls l.

End BindingToSyntax.

(** [interfaces.ContainerModule]: its [registry] callback is given as the
    [bind] calls it makes, in order, each with the fluent calls chained on
    the syntax object that [bind] returned. *)
Module ContainerModule.

Record t : Type := mk {
  guid : string;
  registry : list (ServiceIdentifier * list BindingToSyntax.Call)
}.

End ContainerModule.

(* ================================================================== *)
(** * The container *)
(* ================================================================== *)

Module Container.

Inductive t : Type := mk {
  guid : string;
  options : ContainerOptions.t;
  _middleware : option Next;
  _bindingDictionary : Lookup.t;
  _snapshots : list ContainerSnapshot.t;
  _parentContainer : option t
}.

Definition setBindingDictionary (l : Lookup.t) (c : t) : t :=
  mk (guid c) (options c) (_middleware c) l (_snapshots c) (_parentContainer c).

Definition setMiddleware (m : option Next) (c : t) : t :=
  mk (guid c) (options c) m (_bindingDictionary c) (_snapshots c) (_parentContainer c).

Definition setSnapshots (s : list ContainerSnapshot.t) (c : t) : t :=
  mk (guid c) (options c) (_middleware c) (_bindingDictionary c) s (_parentContainer c).

(** [set parent(container)] *)
Definition setParent (p : option t) (c : t) : t :=
  mk (guid c) (options c) (_middleware c) (_bindingDictionary c) (_snapshots c) p.

(** [get parent()] *)
Definition parent (c : t) : option t := _parentContainer c.

(** The registries the planner sees from a container: its own, then its
    ancestors'. *)
Fixpoint registries (c : t) : Registries :=
  match c with
  | mk _ _ _ l _ p =>
      l :: match p with
           | Some container => registries container
           | None => []
           end
  end.

(** [constructor(containerOptions?)]; [g] is what [guid()] returns. *)
Definition new (g : string) (containerOptions : Value) : Result t :=
  opts <-
    (if negb (strictEquals containerOptions VUndefined) then
       if negb (String.eqb (typeof containerOptions) "object") then
         Err KERNEL_OPTIONS_MUST_BE_AN_OBJECT
       else
         scope <- getProperty containerOptions "defaultScope" ;;
         if strictEquals scope VUndefined then
           Err KERNEL_OPTIONS_INVALID_DEFAULT_SCOPE
         else if negb (strictEquals scope (BindingScopeEnum.value BindingScopeEnum.Singleton))
                 && negb (strictEquals scope (BindingScopeEnum.value BindingScopeEnum.Transient))
         then Err KERNEL_OPTIONS_INVALID_DEFAULT_SCOPE
         else Ok (ContainerOptions.mk scope)
     else Ok (ContainerOptions.mk (BindingScopeEnum.value BindingScopeEnum.Transient))) ;;
  Ok (mk g opts None Lookup.empty [] None).

(** The inner function of [merge].  It gives back both registries as the call
    leaves them: the origin is only traversed, the destination receives the
    clones. *)
Definition copyDictionary (origing destination : Lookup.t) : Lookup.t * Lookup.t :=
  (origing,
   Lookup.traverse
     (fun key value dest =>
        fold_left (fun d binding =>
                     Lookup.add (Binding.serviceIdentifier binding) (Binding.clone binding) d)
                  value dest)
     origing destination).

(** [static merge(container1, container2)]: the new container, and the
    registries of the two arguments as the call leaves them. *)
Definition merge (g : string) (container1 container2 : t)
  : Result (t * (Lookup.t * Lookup.t)) :=
  container <- new g VUndefined ;;
  let bindingDictionary := _bindingDictionary container in
  let bindingDictionary1 := _bindingDictionary container1 in
  let bindingDictionary2 := _bindingDictionary container2 in
  let '(bindingDictionary1, bindingDictionary) :=
    copyDictionary bindingDictionary1 bindingDictionary in
  let '(bindingDictionary2, bindingDictionary) :=
    copyDictionary bindingDictionary2 bindingDictionary in
  Ok (setBindingDictionary bindingDictionary container,
      (bindingDictionary1, bindingDictionary2)).

(** [bind(serviceIdentifier)] *)
Definition bind (serviceIdentifier : ServiceIdentifier) (c : t) : t * BindingToSyntax.t :=
  let defaultScope := BindingScopeEnum.Transient in
  let defaultScope :=
    if strictEquals (ContainerOptions.defaultScope (options c))
                    (BindingScopeEnum.value defaultScope)
    then defaultScope else BindingScopeEnum.Singleton in
  let binding := Binding.new serviceIdentifier defaultScope in
  let index := List.length (Lookup.bindingsOf serviceIdentifier (_bindingDictionary c)) in
  (setBindingDictionary (Lookup.add serviceIdentifier binding (_bindingDictionary c)) c,
   BindingToSyntax.mk serviceIdentifier index).

(** The fluent calls a caller chains on what [bind] returned. *)
Definition configure (syntax : BindingToSyntax.t) (calls : list BindingToSyntax.Call)
  (c : t) : t :=
  setBindingDictionary (BindingToSyntax.configure syntax calls (_bindingDictionary c)) c.

(** The function [getBindFunction(moduleId)] of [load] returns. *)
Definition bindFunction (moduleId : string) (serviceIdentifier : ServiceIdentifier)
  (c : t) : t * BindingToSyntax.t :=
  let '(c1, bindingToSyntax) := bind serviceIdentifier c in
  (setBindingDictionary
     (Lookup.update (BindingToSyntax.refIdentifier bindingToSyntax)
                    (BindingToSyntax.refIndex bindingToSyntax)
                    (Binding.setModuleId moduleId)
                    (_bindingDictionary c1)) c1,
   bindingToSyntax).

(** [module.registry(bindFunction)] *)
Definition runRegistry (moduleId : string)
  (registry : list (ServiceIdentifier * list BindingToSyntax.Call)) (c : t) : t :=
  fold_left (fun acc entry =>
               let '(acc1, bindingToSyntax) := bindFunction moduleId (fst entry) acc in
               configure bindingToSyntax (snd entry) acc1)
            registry c.

(** [load(...modules)] *)
Definition load (modules : list ContainerModule.t) (c : t) : t :=
  fold_left (fun acc module =>
               runRegistry (ContainerModule.guid module) (ContainerModule.registry module) acc)
            modules c.

(** [unload(...modules)] *)
Definition unload (modules : list ContainerModule.t) (c : t) : t :=
  let conditionFactory (expected : string) := fun item => Binding.hasModuleId expected item in
  fold_left (fun acc module =>
               let condition := conditionFactory (ContainerModule.guid module) in
               setBindingDictionary
                 (Lookup.removeByCondition condition (_bindingDictionary acc)) acc)
            modules c.

(** [unbind(serviceIdentifier)] *)
Definition unbind (serviceIdentifier : ServiceIdentifier) (c : t) : Result t :=
  match Lookup.remove serviceIdentifier (_bindingDictionary c) with
  | Ok l => Ok (setBindingDictionary l c)
  | Err _ => Err (CANNOT_UNBIND (getServiceIdentifierAsString serviceIdentifier))
  end.

(** [unbindAll()] *)
Definition unbindAll (c : t) : t := setBindingDictionary Lookup.empty c.

(** [isBound(serviceIdentifier)] *)
Definition isBound (serviceIdentifier : ServiceIdentifier) (c : t) : bool :=
  Lookup.hasKey serviceIdentifier (_bindingDictionary c).

(** [isBoundTagged(serviceIdentifier, key, value)] *)
Definition isBoundTagged (serviceIdentifier : ServiceIdentifier) (key value : Value)
  (c : t) : Result bool :=
  bindings <- Lookup.get serviceIdentifier (_bindingDictionary c) ;;
  let request := Planner.createMockRequest serviceIdentifier key value in
  Ok (existsb (fun b => Binding.constraint b request) bindings).

(** [isBoundNamed(serviceIdentifier, named)] *)
Definition isBoundNamed (serviceIdentifier : ServiceIdentifier) (named : Value)
  (c : t) : Result bool :=
  isBoundTagged serviceIdentifier METADATA_KEY.NAMED_TAG named c.

(** [snapshot()] *)
Definition snapshot (c : t) : t :=
  setSnapshots
    (_snapshots c ++
     [ContainerSnapshot.of_ (Lookup.clone (_bindingDictionary c)) (_middleware c)]) c.

(** [Array.prototype.pop]: the last element and the array without it. *)
Definition pop {A : Type} (xs : list A) : option (A * list A) :=
  match rev xs with
  | [] => None
  | x :: before => Some (x, rev before)
  end.

(** [restore()] *)
Definition restore (c : t) : Result t :=
  if Nat.eqb (List.length (_snapshots c)) 0 then Err NO_MORE_SNAPSHOTS_AVAILABLE
  else
    match pop (_snapshots c) with
    | None => Err (TypeError "Cannot read property of undefined")
    | Some (snapshot, remaining) =>
        Ok (mk (guid c) (options c) (ContainerSnapshot.middleware snapshot)
               (ContainerSnapshot.bindings snapshot) remaining (_parentContainer c))
    end.

(** [createChild()] *)
Definition createChild (g : string) (c : t) : Result t :=
  child <- new g VUndefined ;;
  Ok (setParent (Some c) child).

(** [_planAndResolve()] *)
Definition _planAndResolve : Next :=
  fun this args =>
    context <- Planner.plan this
                 (NextArgs.isMultiInject args)
                 (NextArgs.targetType args)
                 (NextArgs.serviceIdentifier args)
                 (NextArgs.key args)
                 (NextArgs.value args)
                 (NextArgs.avoidConstraints args) ;;
    Resolver.resolve (NextArgs.contextInterceptor args context).

(** [applyMiddleware(...middlewares)] *)
Definition applyMiddleware (middlewares : list Middleware) (c : t) : t :=
  let initial := match _middleware c with
                 | Some m => m
                 | None => _planAndResolve
                 end in
  setMiddleware (Some (fold_left (fun prev curr => curr prev) middlewares initial)) c.

(** [_get(avoidConstraints, isMultiInject, targetType, serviceIdentifier, key?, value?)] *)
Definition _get (avoidConstraints isMultiInject : bool) (targetType : TargetTypeEnum.t)
  (serviceIdentifier : ServiceIdentifier) (key value : Value) (c : t) : Result Resolved :=
  let args :=
    {| NextArgs.avoidConstraints := avoidConstraints;
       NextArgs.contextInterceptor := fun context => context;
       NextArgs.isMultiInject := isMultiInject;
       NextArgs.key := key;
       NextArgs.serviceIdentifier := serviceIdentifier;
       NextArgs.targetType := targetType;
       NextArgs.value := value |} in
  match _middleware c with
  | Some middleware =>
      result <- middleware (registries c) args ;;
      if isAbsentResult result then Err INVALID_MIDDLEWARE_RETURN
      else Ok result
  | None => _planAndResolve (registries c) args
  end.

(** [get(serviceIdentifier)] *)
Definition get (serviceIdentifier : ServiceIdentifier) (c : t) : Result Resolved :=
  _get false false TargetTypeEnum.Variable_ serviceIdentifier VUndefined VUndefined c.



(** [getAll(serviceIdentifier)] *)
Definition getAll (serviceIdentifier : ServiceIdentifier) (c : t) : Result Resolved :=
  _get true true TargetTypeEnum.Variable_ serviceIdentifier VUndefined VUndefined c.

(** [getAllTagged(serviceIdentifier, key, value)] *)
Definition getAllTagged (serviceIdentifier : ServiceIdentifier) (key value : Value)
  (c : t) : Result Resolved :=
  _get false true TargetTypeEnum.Variable_ serviceIdentifier key value c.

(** [getAllNamed(serviceIdentifier, named)] *)
Definition getAllNamed (serviceIdentifier : ServiceIdentifier) (named : Value)
  (c : t) : Result Resolved :=
  getAllTagged serviceIdentifier METADATA_KEY.NAMED_TAG named c.

End Container.

(* ================================================================== *)
(** * Notions used by the statements *)
(* ================================================================== *)

(** The [defaultScope] field of an options argument, [undefined] when the
    argument has no such property of its own. *)
Definition defaultScopeField (containerOptions : Value) : Value :=
  match containerOptions with
  | VObject _ props => lookupProp "defaultScope" props
  | _ => VUndefined
  end.

(** "Exactly Singleton or Transient". *)
Definition isSingletonOrTransient (v : Value) : bool :=
  strictEquals v (BindingScopeEnum.value BindingScopeEnum.Singleton)
  || strictEquals v (BindingScopeEnum.value BindingScopeEnum.Transient).

(** A registry mutation of the container's public interface; a [bind] comes
    with the fluent calls chained on it. *)
Inductive Mutation : Type :=
| MBind (serviceIdentifier : ServiceIdentifier) (calls : list BindingToSyntax.Call)
| MUnbind (serviceIdentifier : ServiceIdentifier)
| MUnbindAll.

(** The container after one mutation; an [unbind] that throws leaves it as it
    was. *)
Definition mutate (m : Mutation) (c : Container.t) : Container.t :=
  match m with
  | MBind id calls =>
      let '(c1, syntax) := Container.bind id c in
      Container.configure syntax calls c1
  | MUnbind id =>
      match Container.unbind id c with
      | Ok c1 => c1
      | Err _ => c
      end
  | MUnbindAll => Container.unbindAll c
  end.

Definition mutateAll (ms : list Mutation) (c : Container.t) : Container.t :=
  fold_left (fun acc m => mutate m acc) ms c.


(** Every binding sits under its own identifier, and no key occurs twice:
    what [add] maintains when a binding is added under its identifier, as
    [bind] and [merge] do. *)
Definition wellKeyed (l : Lookup.t) : Prop :=
  NoDup (Lookup.keys l)
  /\ Forall (fun kv => Forall (fun b => Binding.serviceIdentifier b = fst kv) (snd kv)) l.

(** The root target of [get(id)] and of [getAll(id)]. *)
Definition getTarget (id : ServiceIdentifier) : Target.t :=
  Planner.createTarget false TargetTypeEnum.Variable_ id VUndefined VUndefined.

Definition getAllTarget (id : ServiceIdentifier) : Target.t :=
  Planner.createTarget true TargetTypeEnum.Variable_ id VUndefined VUndefined.

(** The bindings that match the request of [get(id)]: those of the nearest
    registry of the parent chain in which some binding of [id] passes its
    constraint. *)
Definition matching (id : ServiceIdentifier) (c : Container.t) : list Binding.t :=
  Planner.getBindings false (getTarget id) (Container.registries c).

(** The bindings of [id] whose constraint matches the request of [getAll(id)],
    and those [getAll] takes: all of the nearest registry that has any. *)
Definition matchingAll (id : ServiceIdentifier) (c : Container.t) : list Binding.t :=
  Planner.getBindings false (getAllTarget id) (Container.registries c).

Definition candidatesAll (id : ServiceIdentifier) (c : Container.t) : list Binding.t :=
  Planner.getBindings true (getAllTarget id) (Container.registries c).

(** The child nodes planned for one matched binding of a root request. *)
Definition planChildren (id : ServiceIdentifier) (c : Container.t) (b : Binding.t)
  : Result (list Request) :=
  match Binding.constructionStrategy b with
  | Some (ToType impl) =>
      mapR (Planner.planRequest
              (List.length (Planner.allKeys (Container.registries c)))
              (Container.registries c) [id] false)
           (dependencies impl)
  | _ => Ok []
  end.

(** One matched binding of a root request with its planned children. *)
Definition planMatched (id : ServiceIdentifier) (c : Container.t) (b : Binding.t)
  : Result (Binding.t * list Request) :=
  children <- planChildren id c b ;;
  Ok (b, children).

(** The errors with which the planner turns down the request for [id]. *)
Definition turnsDown (id : ServiceIdentifier) (e : Error) : Prop :=
  e = NOT_REGISTERED id \/ e = AMBIGUOUS_MATCH id.

(** The errors the resolver raises. *)
Definition raisedByResolver (e : Error) : Prop :=
  match e with
  | INVALID_BINDING_TYPE _ | TypeError _ | Thrown _ => True
  | _ => False
  end.

(** Planning, then resolving, one matched binding of a root request. *)
Definition resolvedValue (id : ServiceIdentifier) (c : Container.t) (b : Binding.t)
  : Result Value :=
  children <- planChildren id c b ;;
  Resolver.resolveMatched (b, children).

(** The scope [bind] gives a new binding. *)
Definition defaultBindingScope (c : Container.t) : BindingScopeEnum.t :=
  if strictEquals (ContainerOptions.defaultScope (Container.options c))
                  (BindingScopeEnum.value BindingScopeEnum.Transient)
  then BindingScopeEnum.Transient else BindingScopeEnum.Singleton.

Definition applyCalls (calls : list BindingToSyntax.Call) (b : Binding.t) : Binding.t :=
  fold_left (fun acc call => BindingToSyntax.applyCall call acc) calls b.

(** The binding that one entry of a module's registry leaves in the registry:
    created by [bind], tagged with the module's id, then configured. *)
Definition moduleBinding (scope : BindingScopeEnum.t) (moduleId : string)
  (entry : ServiceIdentifier * list BindingToSyntax.Call) : Binding.t :=
  applyCalls (snd entry) (Binding.setModuleId moduleId (Binding.new (fst entry) scope)).

(** The entries of a registry that bind [id]. *)
Definition entriesFor (id : ServiceIdentifier)
  (registry : list (ServiceIdentifier * list BindingToSyntax.Call))
  : list (ServiceIdentifier * list BindingToSyntax.Call) :=
  filter (fun entry => ServiceIdentifier_eqb (fst entry) id) registry.

(** One entry of a module's registry: [bind], tag, configure. *)
Definition loadEntry (moduleId : string)
  (entry : ServiceIdentifier * list BindingToSyntax.Call) (c : Container.t) : Container.t :=
  let '(c1, bindingToSyntax) := Container.bindFunction moduleId (fst entry) c in
  Container.configure bindingToSyntax (snd entry) c1.

(** The bindings of a registry whose own identifier is [id], in traversal
    order. *)
Definition bindingsFor (id : ServiceIdentifier) (l : Lookup.t) : list Binding.t :=
  filter (fun b => ServiceIdentifier_eqb (Binding.serviceIdentifier b) id)
         (Lookup.allBindings l).

(** What [copyDictionary] does with one binding of the origin. *)
Definition addClone (destination : Lookup.t) (binding : Binding.t) : Lookup.t :=
  Lookup.add (Binding.serviceIdentifier binding) (Binding.clone binding) destination.

(** Anything a caller does to a container between a snapshot and a restore:
    a registry mutation, fluent calls on a syntax object kept from an
    earlier [bind], loading and unloading modules, applying middleware. *)
Inductive Action : Type :=
| AMutate (m : Mutation)
| AConfigure (syntax : BindingToSyntax.t) (calls : list BindingToSyntax.Call)
| ALoad (modules : list ContainerModule.t)
| AUnload (modules : list ContainerModule.t)
| AApplyMiddleware (middlewares : list Middleware).

Definition act (a : Action) (c : Container.t) : Container.t :=
  match a with
  | AMutate m => mutate m c
  | AConfigure syntax calls => Container.configure syntax calls c
  | ALoad modules => Container.load modules c
  | AUnload modules => Container.unload modules c
  | AApplyMiddleware middlewares => Container.applyMiddleware middlewares c
  end.

Definition actAll (actions : list Action) (c : Container.t) : Container.t :=
  fold_left (fun acc a => act a acc) actions c.

(** The binding carries the id of one of the modules. *)
Definition fromModules (modules : list ContainerModule.t) (b : Binding.t) : bool :=
  existsb (fun module => Binding.hasModuleId (ContainerModule.guid module) b) modules.

(** The bindings that loading the modules leaves under [id], in the order of
    the modules and, within a module, of its [bind] calls. *)
Definition loadedBindings (scope : BindingScopeEnum.t) (id : ServiceIdentifier)
  (modules : list ContainerModule.t) : list Binding.t :=
  flat_map (fun module =>
              map (moduleBinding scope (ContainerModule.guid module))
                  (entriesFor id (ContainerModule.registry module)))
           modules.

(** The argument bundle [_get] builds. *)
Definition bundle (avoidConstraints isMultiInject : bool) (targetType : TargetTypeEnum.t)
  (serviceIdentifier : ServiceIdentifier) (key value : Value) : NextArgs.t :=
  NextArgs.mk avoidConstraints (fun context => context) isMultiInject
              key serviceIdentifier targetType value.

(** The check [_get] makes on what a middleware chain returned. *)
Definition checked (r : Result Resolved) : Result Resolved :=
  result <- r ;;
  if isAbsentResult result then Err INVALID_MIDDLEWARE_RETURN else Ok result.

(** The errors of the planner and of the resolver. *)
Definition raisedByPlanner (e : Error) : Prop :=
  match e with
  | NOT_REGISTERED _ | AMBIGUOUS_MATCH _ | CIRCULAR_DEPENDENCY _
  | PLAN_DEPTH_EXHAUSTED => True
  | _ => False
  end.

(** What an operation leaves alone when it only works on the registry or on
    the middleware. *)
Definition sameFrame (c c1 : Container.t) : Prop :=
  Container._snapshots c1 = Container._snapshots c
  /\ Container.guid c1 = Container.guid c
  /\ Container.options c1 = Container.options c
  /\ Container._parentContainer c1 = Container._parentContainer c.



(* ================================================================== *)
(** * Sample containers *)
(* ================================================================== *)

Module Samples.

Definition Weapon : ServiceIdentifier := IdString "Weapon".
Definition Warrior : ServiceIdentifier := IdString "Warrior".

Definition katana : Value := VObject 1 [("name", VString "katana")].
Definition shuriken : Value := VObject 2 [("name", VString "shuriken")].

(** [new Container()] *)
Definition fresh : Container.t :=
  Container.mk "c1"
    (ContainerOptions.mk (BindingScopeEnum.value BindingScopeEnum.Transient))
    None Lookup.empty [] None.



(** The constraint of a binding meant for targets named [name]. *)
Definition targetNamed (name : string) : Target.t -> bool :=
  Target.hasTag METADATA_KEY.NAMED_TAG (VString name).

(** [bind(Weapon).toConstantValue(katana)] and
    [bind(Weapon).toConstantValue(shuriken).when(targetNamed "throwable")] *)
Definition armoury : Container.t :=
  mutateAll
    [MBind Weapon [BindingToSyntax.toConstantValue katana];
     MBind Weapon [BindingToSyntax.toConstantValue shuriken;
                   BindingToSyntax.when (targetNamed "throwable")]]
    fresh.

(** [bind(Weapon).toConstantValue(katana)] *)
Definition oneWeapon : Container.t :=
  mutateAll [MBind Weapon [BindingToSyntax.toConstantValue katana]] fresh.

(** A module that binds [Weapon] to the shuriken. *)
Definition weapons : ContainerModule.t :=
  ContainerModule.mk "A" [(Weapon, [BindingToSyntax.toConstantValue shuriken])].

(** A class whose constructor takes one injected [Weapon]. *)
Definition Ninja : Newable :=
  mkNewable "Ninja"
    [Target.mk Weapon TargetTypeEnum.ConstructorArgument false []]
    (fun args =>
       match args with
       | [Single weapon] => Returns (VObject 3 [("weapon", weapon)])
       | _ => Throws (VString "Ninja: one weapon expected")
       end).

(** [bind(Weapon).toConstantValue(katana)] and [bind(Warrior).to(Ninja)] *)
Definition dojo : Container.t :=
  mutateAll
    [MBind Weapon [BindingToSyntax.toConstantValue katana];
     MBind Warrior [BindingToSyntax.to Ninja]]
    fresh.

(** Two classes that depend on each other. *)
Definition Egg : Newable :=
  mkNewable "Egg"
    [Target.mk (IdString "Chicken") TargetTypeEnum.ConstructorArgument false []]
    (fun _ => Returns (VObject 4 [])).

Definition Chicken : Newable :=
  mkNewable "Chicken"
    [Target.mk (IdString "Egg") TargetTypeEnum.ConstructorArgument false []]
    (fun _ => Returns (VObject 5 [])).

Definition farm : Container.t :=
  mutateAll
    [MBind (IdString "Egg") [BindingToSyntax.to Egg];
     MBind (IdString "Chicken") [BindingToSyntax.to Chicken]]
    fresh.

(** A second module, which binds [Warrior] and [Weapon]. *)
Definition warriors : ContainerModule.t :=
  ContainerModule.mk "B"
    [(Warrior, [BindingToSyntax.to Ninja]);
     (Weapon, [BindingToSyntax.toConstantValue katana; BindingToSyntax.inSingletonScope])].

(** [new Container({ defaultScope: "Singleton" })] with [Weapon] bound. *)
Definition singletons : Container.t :=
  mutateAll [MBind Weapon [BindingToSyntax.toConstantValue katana]]
    (Container.mk "c5"
       (ContainerOptions.mk (BindingScopeEnum.value BindingScopeEnum.Singleton))
       None Lookup.empty [] None).


End Samples.

(* ================================================================== *)
(** * Basic facts *)
(* ================================================================== *)

Lemma ServiceIdentifier_eqb_eq (a b : ServiceIdentifier) :
  ServiceIdentifier_eqb a b = true <-> a = b.
Proof.
  destruct a, b; simpl; split; intro H; try discriminate; try congruence.
  - apply String.eqb_eq in H. congruence.
  - inversion H. apply String.eqb_refl.
  - apply andb_true_iff in H. destruct H as [H1 H2].
    apply Nat.eqb_eq in H1. apply String.eqb_eq in H2. congruence.
  - inversion H. rewrite Nat.eqb_refl, String.eqb_refl. reflexivity.
  - apply andb_true_iff in H. destruct H as [H1 H2].
    apply Nat.eqb_eq in H1. apply String.eqb_eq in H2. congruence.
  - inversion H. rewrite Nat.eqb_refl, String.eqb_refl. reflexivity.
Qed.

Lemma ServiceIdentifier_eqb_refl (a : ServiceIdentifier) :
  ServiceIdentifier_eqb a a = true.
Proof. apply ServiceIdentifier_eqb_eq. reflexivity. Qed.

Lemma ServiceIdentifier_eqb_neq (a b : ServiceIdentifier) :
  ServiceIdentifier_eqb a b = false <-> a <> b.
Proof.
  split.
  - intros H E. apply ServiceIdentifier_eqb_eq in E. congruence.
  - intro N. destruct (ServiceIdentifier_eqb a b) eqn:E; [|reflexivity].
    apply ServiceIdentifier_eqb_eq in E. contradiction.
Qed.

Lemma ServiceIdentifier_eqb_sym (a b : ServiceIdentifier) :
  ServiceIdentifier_eqb a b = ServiceIdentifier_eqb b a.
Proof.
  destruct (ServiceIdentifier_eqb a b) eqn:E.
  - apply ServiceIdentifier_eqb_eq in E. subst. symmetry. apply ServiceIdentifier_eqb_refl.
  - symmetry. apply ServiceIdentifier_eqb_neq. apply ServiceIdentifier_eqb_neq in E.
    congruence.
Qed.

Lemma strictEquals_string (v : Value) (s : string) :
  strictEquals v (VString s) = true <-> v = VString s.
Proof.
  destruct v; simpl; split; intro H; try discriminate.
  - apply String.eqb_eq in H. congruence.
  - inversion H. apply String.eqb_refl.
Qed.

Lemma strictEquals_undefined (v : Value) :
  strictEquals v VUndefined = true <-> v = VUndefined.
Proof. destruct v; simpl; split; intro H; congruence. Qed.

(** ** The registry *)

Lemma hasKey_find (id : ServiceIdentifier) (l : Lookup.t) :
  Lookup.hasKey id l = match Lookup.find id l with Some _ => true | None => false end.
Proof.
  induction l as [|[k bs] rest IH]; simpl; [reflexivity|].
  destruct (ServiceIdentifier_eqb k id); simpl; [reflexivity|exact IH].
Qed.

Lemma find_add_same (id : ServiceIdentifier) (b : Binding.t) (l : Lookup.t) :
  Lookup.find id (Lookup.add id b l) = Some (Lookup.bindingsOf id l ++ [b]).
Proof.
  unfold Lookup.bindingsOf.
  induction l as [|[k bs] rest IH]; simpl.
  - rewrite ServiceIdentifier_eqb_refl. reflexivity.
  - destruct (ServiceIdentifier_eqb k id) eqn:E; simpl; rewrite E; [reflexivity|exact IH].
Qed.

Lemma find_add_other (id id' : ServiceIdentifier) (b : Binding.t) (l : Lookup.t) :
  id' <> id -> Lookup.find id' (Lookup.add id b l) = Lookup.find id' l.
Proof.
  intro N. induction l as [|[k bs] rest IH]; simpl.
  - apply ServiceIdentifier_eqb_neq in N. rewrite ServiceIdentifier_eqb_sym, N. reflexivity.
  - destruct (ServiceIdentifier_eqb k id) eqn:E; simpl.
    + apply ServiceIdentifier_eqb_eq in E. subst k.
      apply ServiceIdentifier_eqb_neq in N. rewrite ServiceIdentifier_eqb_sym, N.
      reflexivity.
    + destruct (ServiceIdentifier_eqb k id'); [reflexivity|exact IH].
Qed.

Lemma bindingsOf_add_same (id : ServiceIdentifier) (b : Binding.t) (l : Lookup.t) :
  Lookup.bindingsOf id (Lookup.add id b l) = Lookup.bindingsOf id l ++ [b].
Proof. unfold Lookup.bindingsOf at 1. rewrite find_add_same. reflexivity. Qed.

Lemma bindingsOf_add_other (id id' : ServiceIdentifier) (b : Binding.t) (l : Lookup.t) :
  id' <> id -> Lookup.bindingsOf id' (Lookup.add id b l) = Lookup.bindingsOf id' l.
Proof. intro N. unfold Lookup.bindingsOf. rewrite find_add_other by exact N. reflexivity. Qed.

Lemma hasKey_add_same (id : ServiceIdentifier) (b : Binding.t) (l : Lookup.t) :
  Lookup.hasKey id (Lookup.add id b l) = true.
Proof. rewrite hasKey_find, find_add_same. reflexivity. Qed.

Lemma hasKey_after_remove (id : ServiceIdentifier) (l : Lookup.t) :
  Lookup.hasKey id (filter (fun kv => negb (ServiceIdentifier_eqb (fst kv) id)) l) = false.
Proof.
  unfold Lookup.hasKey.
  induction l as [|[k bs] rest IH]; simpl; [reflexivity|].
  destruct (ServiceIdentifier_eqb k id) eqn:E; simpl; [exact IH|].
  rewrite E. exact IH.
Qed.

Lemma find_removeByCondition (p : Binding.t -> bool) (id : ServiceIdentifier) (l : Lookup.t) :
  Lookup.find id (Lookup.removeByCondition p l)
  = option_map (filter (fun b => negb (p b))) (Lookup.find id l).
Proof.
  induction l as [|[k bs] rest IH]; simpl; [reflexivity|].
  destruct (ServiceIdentifier_eqb k id); [reflexivity|exact IH].
Qed.


Lemma bindingsOf_removeByCondition (p : Binding.t -> bool) (id : ServiceIdentifier)
  (l : Lookup.t) :
  Lookup.bindingsOf id (Lookup.removeByCondition p l)
  = filter (fun b => negb (p b)) (Lookup.bindingsOf id l).
Proof.
  unfold Lookup.bindingsOf. rewrite find_removeByCondition.
  destruct (Lookup.find id l); reflexivity.
Qed.

Lemma find_update_same (id : ServiceIdentifier) (n : nat) (f : Binding.t -> Binding.t)
  (l : Lookup.t) :
  Lookup.find id (Lookup.update id n f l)
  = option_map (Lookup.updateNth n f) (Lookup.find id l).
Proof.
  induction l as [|[k bs] rest IH]; simpl; [reflexivity|].
  destruct (ServiceIdentifier_eqb k id) eqn:E; simpl; rewrite E; [reflexivity|exact IH].
Qed.

Lemma find_update_other (id id' : ServiceIdentifier) (n : nat) (f : Binding.t -> Binding.t)
  (l : Lookup.t) :
  id' <> id -> Lookup.find id' (Lookup.update id n f l) = Lookup.find id' l.
Proof.
  intro N. induction l as [|[k bs] rest IH]; simpl; [reflexivity|].
  destruct (ServiceIdentifier_eqb k id) eqn:E; simpl.
  - apply ServiceIdentifier_eqb_eq in E. subst k.
    apply ServiceIdentifier_eqb_neq in N. rewrite ServiceIdentifier_eqb_sym, N. reflexivity.
  - destruct (ServiceIdentifier_eqb k id'); [reflexivity|exact IH].
Qed.

Lemma hasKey_update (id id' : ServiceIdentifier) (n : nat) (f : Binding.t -> Binding.t)
  (l : Lookup.t) :
  Lookup.hasKey id' (Lookup.update id n f l) = Lookup.hasKey id' l.
Proof.
  unfold Lookup.hasKey.
  induction l as [|[k bs] rest IH]; simpl; [reflexivity|].
  destruct (ServiceIdentifier_eqb k id); simpl; [reflexivity|].
  rewrite IH. reflexivity.
Qed.

Lemma updateNth_last {A : Type} (f : A -> A) (xs : list A) (x : A) :
  Lookup.updateNth (List.length xs) f (xs ++ [x]) = xs ++ [f x].
Proof. induction xs as [|y ys IH]; simpl; [reflexivity|]. rewrite IH. reflexivity. Qed.

(* ================================================================== *)
(** * The constructor and [bind] *)
(* ================================================================== *)

Lemma new_without_options (g : string) :
  Container.new g VUndefined
  = Ok (Container.mk g
          (ContainerOptions.mk (BindingScopeEnum.value BindingScopeEnum.Transient))
          None Lookup.empty [] None).
Proof. reflexivity. Qed.

Lemma new_options (g : string) (opts : Value) (c : Container.t) :
  Container.new g opts = Ok c ->
  ContainerOptions.defaultScope (Container.options c)
  = (if strictEquals opts VUndefined
     then BindingScopeEnum.value BindingScopeEnum.Transient
     else defaultScopeField opts)
  /\ isSingletonOrTransient (ContainerOptions.defaultScope (Container.options c)) = true.
Proof.
  unfold Container.new, isSingletonOrTransient.
  destruct opts; simpl; try discriminate.
  - intro H. inversion H. subst c. simpl. split; reflexivity.
  - destruct (lookupProp "defaultScope" props) eqn:E; simpl; try discriminate.
    destruct (String.eqb s "Singleton") eqn:E1; simpl.
    + intro H. inversion H. subst c. simpl. rewrite E1. split; reflexivity.
    + destruct (String.eqb s "Transient") eqn:E2; simpl; try discriminate.
      intro H. inversion H. subst c. simpl. rewrite E1, E2. split; reflexivity.
Qed.

(** C10.  Constructing a container throws exactly when an argument is given
    and it is not an object or its [defaultScope] is not exactly Singleton or
    Transient; an options object without [defaultScope] is rejected; with no
    argument the construction succeeds with [defaultScope] Transient. *)
Theorem constructor_validates_options :
  (forall (g : string) (opts : Value),
      isErr (Container.new g opts)
      = negb (strictEquals opts VUndefined)
        && (negb (isObject opts) || negb (isSingletonOrTransient (defaultScopeField opts))))
  /\ (forall (g : string) (ref : nat) (props : list (string * Value)),
         lookupProp "defaultScope" props = VUndefined ->
         Container.new g (VObject ref props) = Err KERNEL_OPTIONS_INVALID_DEFAULT_SCOPE)
  /\ (forall (g : string),
         exists c, Container.new g VUndefined = Ok c
                   /\ ContainerOptions.defaultScope (Container.options c)
                      = BindingScopeEnum.value BindingScopeEnum.Transient).
Proof.
  split; [|split].
  - intros g opts. unfold Container.new, isSingletonOrTransient.
    destruct opts; simpl; try reflexivity.
    destruct (lookupProp "defaultScope" props) eqn:E; simpl; try reflexivity.
    destruct (String.eqb s "Singleton"); simpl; [reflexivity|].
    destruct (String.eqb s "Transient"); reflexivity.
  - intros g ref props H. unfold Container.new. simpl. rewrite H. reflexivity.
  - intro g. eexists. split; [apply new_without_options|reflexivity].
Qed.

Lemma constructor_validates_options_witness :
  Container.new "c1" (VObject 0 [("name", VString "kernel")])
  = Err KERNEL_OPTIONS_INVALID_DEFAULT_SCOPE.
Proof.
  apply (proj1 (proj2 constructor_validates_options)). reflexivity.
Defined.

Lemma bind_dictionary (id : ServiceIdentifier) (c : Container.t) :
  Container._bindingDictionary (fst (Container.bind id c))
  = Lookup.add id
      (Binding.new id
         (if strictEquals (ContainerOptions.defaultScope (Container.options c))
                          (BindingScopeEnum.value BindingScopeEnum.Transient)
          then BindingScopeEnum.Transient else BindingScopeEnum.Singleton))
      (Container._bindingDictionary c).
Proof. reflexivity. Qed.

(** C5.  [bind(id)] appends, under [id], a new binding whose scope is the
    default scope the container was constructed with: Transient without
    options or with [defaultScope] Transient, Singleton with [defaultScope]
    Singleton. *)
Theorem bind_uses_default_scope
  (g : string) (opts : Value) (c0 c : Container.t) (id : ServiceIdentifier) :
  Container.new g opts = Ok c0 ->
  Container.options c = Container.options c0 ->
  exists b,
    Lookup.bindingsOf id (Container._bindingDictionary (fst (Container.bind id c)))
    = Lookup.bindingsOf id (Container._bindingDictionary c) ++ [b]
    /\ Binding.serviceIdentifier b = id
    /\ BindingScopeEnum.value (Binding.scope b)
       = ContainerOptions.defaultScope (Container.options c)
    /\ (opts = VUndefined \/ defaultScopeField opts = VString "Transient" ->
        Binding.scope b = BindingScopeEnum.Transient)
    /\ (defaultScopeField opts = VString "Singleton" ->
        Binding.scope b = BindingScopeEnum.Singleton).
Proof.
  intros Hnew Hopts.
  destruct (new_options _ _ _ Hnew) as [Hscope Hvalid].
  rewrite <- Hopts in Hscope, Hvalid.
  eexists. rewrite bind_dictionary, bindingsOf_add_same.
  split; [reflexivity|]. split; [reflexivity|].
  unfold isSingletonOrTransient in Hvalid.
  set (d := ContainerOptions.defaultScope (Container.options c)) in *.
  simpl in Hvalid |- *.
  destruct (strictEquals d (VString "Transient")) eqn:ET.
  - apply strictEquals_string in ET.
    split; [symmetry; exact ET|]. split; [reflexivity|].
    intro HS. exfalso.
    destruct opts; simpl in HS; try discriminate.
    simpl in Hscope. rewrite HS in Hscope. rewrite Hscope in ET. discriminate.
  - rewrite orb_false_r in Hvalid. apply strictEquals_string in Hvalid.
    split; [symmetry; exact Hvalid|]. split; [|reflexivity].
    intros [HU | HT]; exfalso.
    + subst opts. simpl in Hscope. rewrite Hscope in ET. discriminate.
    + destruct opts; simpl in HT; try discriminate.
      simpl in Hscope. rewrite HT in Hscope. rewrite Hscope in ET. discriminate.
Qed.

Lemma bind_uses_default_scope_witness :
  exists b,
    Lookup.bindingsOf (IdString "Katana")
      (Container._bindingDictionary
         (fst (Container.bind (IdString "Katana")
                 (Container.mk "c1" (ContainerOptions.mk (VString "Singleton"))
                               None Lookup.empty [] None))))
    = [] ++ [b]
    /\ Binding.scope b = BindingScopeEnum.Singleton.
Proof.
  destruct (bind_uses_default_scope "c1"
              (VObject 0 [("defaultScope", VString "Singleton")])
              (Container.mk "c1" (ContainerOptions.mk (VString "Singleton"))
                            None Lookup.empty [] None)
              (Container.mk "c1" (ContainerOptions.mk (VString "Singleton"))
                            None Lookup.empty [] None)
              (IdString "Katana") eq_refl eq_refl)
    as [b [H1 [_ [_ [_ H5]]]]].
  exists b. split; [exact H1|apply H5; reflexivity].
Defined.

(** The operations that act on an existing container keep its options. *)
Lemma options_preserved (c : Container.t) :
  (forall id, Container.options (fst (Container.bind id c)) = Container.options c)
  /\ (forall id c1, Container.unbind id c = Ok c1 -> Container.options c1 = Container.options c)
  /\ Container.options (Container.unbindAll c) = Container.options c
  /\ Container.options (Container.snapshot c) = Container.options c
  /\ (forall c1, Container.restore c = Ok c1 -> Container.options c1 = Container.options c)
  /\ (forall ms, Container.options (Container.applyMiddleware ms c) = Container.options c).
Proof.
  repeat split; try reflexivity.
  - intros id c1. unfold Container.unbind.
    destruct (Lookup.remove id (Container._bindingDictionary c)); [|discriminate].
    intro H. inversion H. reflexivity.
  - intros c1. unfold Container.restore.
    destruct (Nat.eqb _ 0); [discriminate|].
    destruct (Container.pop (Container._snapshots c)) as [[s r]|]; [|discriminate].
    intro H. inversion H. reflexivity.
Qed.

(* ================================================================== *)
(** * [unbind], [isBound], [isBoundTagged] *)
(* ================================================================== *)

(** C7.  [unbind(X)] where [X] has no key in the registry fails with the
    cannot-unbind error (a NotFoundError) naming [X]; after [bind(X)],
    [unbind(X)] succeeds and [isBound(X)] is false. *)
Theorem unbind_absent_fails_and_bind_unbind_unbound :
  (forall (c : Container.t) (X : ServiceIdentifier),
      Container.isBound X c = false ->
      Container.unbind X c = Err (CANNOT_UNBIND (getServiceIdentifierAsString X))
      /\ kindOf (CANNOT_UNBIND (getServiceIdentifierAsString X)) = NotFoundError)
  /\ (forall (c : Container.t) (X : ServiceIdentifier),
         exists c1, Container.unbind X (fst (Container.bind X c)) = Ok c1
                    /\ Container.isBound X c1 = false).
Proof.
  split.
  - intros c X H. unfold Container.unbind, Lookup.remove.
    unfold Container.isBound in H. rewrite H. split; reflexivity.
  - intros c X. unfold Container.unbind, Lookup.remove.
    rewrite bind_dictionary, hasKey_add_same.
    eexists. split; [reflexivity|].
    unfold Container.isBound. simpl. apply hasKey_after_remove.
Qed.

Lemma unbind_absent_fails_and_bind_unbind_unbound_witness :
  Container.unbind (IdString "Ninja")
    (Container.mk "c1" (ContainerOptions.mk (VString "Transient")) None Lookup.empty [] None)
  = Err (CANNOT_UNBIND "Ninja").
Proof.
  apply (proj1 unbind_absent_fails_and_bind_unbind_unbound). reflexivity.
Defined.

(** C9.  When [id] has no key in the container's own registry,
    [isBoundTagged(id, key, value)], and so [isBoundNamed(id, named)], fails
    with the registry's key-not-found error (a NotFoundError) instead of
    returning false. *)
Theorem isBoundTagged_propagates_not_found
  (c : Container.t) (id : ServiceIdentifier) (key value named : Value) :
  Lookup.hasKey id (Container._bindingDictionary c) = false ->
  Container.isBoundTagged id key value c = Err KEY_NOT_FOUND
  /\ Container.isBoundNamed id named c = Err KEY_NOT_FOUND
  /\ kindOf KEY_NOT_FOUND = NotFoundError
  /\ Container.isBoundTagged id key value c <> Ok false.
Proof.
  intro H. unfold Container.isBoundNamed, Container.isBoundTagged, Lookup.get.
  rewrite hasKey_find in H.
  destruct (Lookup.find id (Container._bindingDictionary c)); [discriminate|].
  simpl. repeat split; try reflexivity. discriminate.
Qed.

Lemma isBoundTagged_propagates_not_found_witness :
  Container.isBoundTagged (IdString "Weapon") (VString "canThrow") (VBoolean true)
    (Container.mk "c1" (ContainerOptions.mk (VString "Transient")) None Lookup.empty [] None)
  = Err KEY_NOT_FOUND.
Proof.
  apply (isBoundTagged_propagates_not_found
           (Container.mk "c1" (ContainerOptions.mk (VString "Transient"))
                         None Lookup.empty [] None)
           (IdString "Weapon") (VString "canThrow") (VBoolean true) VUndefined).
  reflexivity.
Defined.

(* ================================================================== *)
(** * The middleware path of [_get] *)
(* ================================================================== *)

(** C8.  On a container with a middleware chain installed, a get-style call
    hands the argument bundle to the chain; if the chain returns null or
    undefined the call fails with the invalid-middleware-return error,
    otherwise what the chain returned is the call's result. *)
Theorem middleware_return_is_checked
  (c : Container.t) (chain : Next)
  (avoidConstraints isMultiInject : bool) (targetType : TargetTypeEnum.t)
  (id : ServiceIdentifier) (key value : Value) (result : Resolved) :
  Container._middleware c = Some chain ->
  chain (Container.registries c)
        (NextArgs.mk avoidConstraints (fun context => context) isMultiInject
                     key id targetType value) = Ok result ->
  (isAbsentResult result = true ->
   Container._get avoidConstraints isMultiInject targetType id key value c
   = Err INVALID_MIDDLEWARE_RETURN
   /\ kindOf INVALID_MIDDLEWARE_RETURN = InvalidConfigurationError)
  /\ (isAbsentResult result = false ->
      Container._get avoidConstraints isMultiInject targetType id key value c
      = Ok result).
Proof.
  intros Hm Hr. unfold Container._get. rewrite Hm, Hr. simpl.
  split; intro Ha; rewrite Ha; [split|]; reflexivity.
Qed.

Lemma middleware_return_is_checked_witness :
  Container.get (IdString "Ninja")
    (Container.applyMiddleware
       [fun (next : Next) => fun this args => Ok (Single VNull)]
       (Container.mk "c1" (ContainerOptions.mk (VString "Transient"))
                     None Lookup.empty [] None))
  = Err INVALID_MIDDLEWARE_RETURN.
Proof.
  apply (middleware_return_is_checked
           (Container.applyMiddleware
              [fun (next : Next) => fun this args => Ok (Single VNull)]
              (Container.mk "c1" (ContainerOptions.mk (VString "Transient"))
                            None Lookup.empty [] None))
           (fun this args => Ok (Single VNull))
           false false TargetTypeEnum.Variable_ (IdString "Ninja")
           VUndefined VUndefined (Single VNull) eq_refl eq_refl).
  reflexivity.
Defined.

(* ================================================================== *)
(** * [snapshot] and [restore] *)
(* ================================================================== *)

Lemma pop_snoc {A : Type} (xs : list A) (x : A) :
  Container.pop (xs ++ [x]) = Some (x, xs).
Proof.
  unfold Container.pop. rewrite rev_app_distr. simpl. rewrite rev_involutive. reflexivity.
Qed.

(** A registry mutation touches the binding dictionary and nothing else. *)
Lemma mutate_frame (m : Mutation) (c : Container.t) :
  Container._snapshots (mutate m c) = Container._snapshots c
  /\ Container._middleware (mutate m c) = Container._middleware c
  /\ Container.options (mutate m c) = Container.options c
  /\ Container.guid (mutate m c) = Container.guid c
  /\ Container._parentContainer (mutate m c) = Container._parentContainer c.
Proof.
  destruct m as [id calls|id|]; simpl.
  - repeat split.
  - unfold Container.unbind.
    destruct (Lookup.remove id (Container._bindingDictionary c)); repeat split.
  - repeat split.
Qed.









(* ================================================================== *)
(** * [load] and [unload] *)
(* ================================================================== *)

Lemma bindingsOf_update_same (id : ServiceIdentifier) (n : nat)
  (f : Binding.t -> Binding.t) (l : Lookup.t) :
  Lookup.bindingsOf id (Lookup.update id n f l)
  = Lookup.updateNth n f (Lookup.bindingsOf id l).
Proof.
  unfold Lookup.bindingsOf. rewrite find_update_same.
  destruct (Lookup.find id l); simpl; [reflexivity|].
  destruct n; reflexivity.
Qed.

Lemma bindingsOf_update_other (id id' : ServiceIdentifier) (n : nat)
  (f : Binding.t -> Binding.t) (l : Lookup.t) :
  id' <> id -> Lookup.bindingsOf id' (Lookup.update id n f l) = Lookup.bindingsOf id' l.
Proof. intro N. unfold Lookup.bindingsOf. rewrite find_update_other by exact N. reflexivity. Qed.

Lemma updateNth_identity {A : Type} (n : nat) (f : A -> A) (xs : list A) :
  (forall x, f x = x) -> Lookup.updateNth n f xs = xs.
Proof.
  intro H. revert n. induction xs as [|x xs IH]; intros [|n]; simpl; try reflexivity.
  - rewrite H. reflexivity.
  - rewrite IH. reflexivity.
Qed.

Lemma updateNth_compose {A : Type} (n : nat) (f g : A -> A) (xs : list A) :
  Lookup.updateNth n g (Lookup.updateNth n f xs) = Lookup.updateNth n (fun x => g (f x)) xs.
Proof.
  revert n. induction xs as [|x xs IH]; intros [|n]; simpl; try reflexivity.
  rewrite IH. reflexivity.
Qed.

Lemma bindingsOf_configure_same (syntax : BindingToSyntax.t)
  (calls : list BindingToSyntax.Call) (l : Lookup.t) :
  Lookup.bindingsOf (BindingToSyntax.refIdentifier syntax)
                    (BindingToSyntax.configure syntax calls l)
  = Lookup.updateNth (BindingToSyntax.refIndex syntax) (applyCalls calls)
      (Lookup.bindingsOf (BindingToSyntax.refIdentifier syntax) l).
Proof.
  unfold BindingToSyntax.configure. revert l.
  induction calls as [|call calls IH]; intro l; simpl.
  - symmetry. apply updateNth_identity. reflexivity.
  - rewrite IH, bindingsOf_update_same, updateNth_compose. reflexivity.
Qed.

Lemma bindingsOf_configure_other (syntax : BindingToSyntax.t)
  (calls : list BindingToSyntax.Call) (l : Lookup.t) (id : ServiceIdentifier) :
  id <> BindingToSyntax.refIdentifier syntax ->
  Lookup.bindingsOf id (BindingToSyntax.configure syntax calls l) = Lookup.bindingsOf id l.
Proof.
  intro N. unfold BindingToSyntax.configure. revert l.
  induction calls as [|call calls IH]; intro l; simpl; [reflexivity|].
  rewrite IH, bindingsOf_update_other by exact N. reflexivity.
Qed.

Lemma hasKey_configure (syntax : BindingToSyntax.t)
  (calls : list BindingToSyntax.Call) (l : Lookup.t) (id : ServiceIdentifier) :
  Lookup.hasKey id (BindingToSyntax.configure syntax calls l) = Lookup.hasKey id l.
Proof.
  unfold BindingToSyntax.configure. revert l.
  induction calls as [|call calls IH]; intro l; simpl; [reflexivity|].
  rewrite IH, hasKey_update. reflexivity.
Qed.

Lemma applyCall_moduleId (call : BindingToSyntax.Call) (b : Binding.t) :
  Binding.moduleId (BindingToSyntax.applyCall call b) = Binding.moduleId b.
Proof. destruct call; reflexivity. Qed.

Lemma applyCalls_moduleId (calls : list BindingToSyntax.Call) (b : Binding.t) :
  Binding.moduleId (applyCalls calls b) = Binding.moduleId b.
Proof.
  unfold applyCalls. revert b.
  induction calls as [|call calls IH]; intro b; simpl; [reflexivity|].
  rewrite IH. apply applyCall_moduleId.
Qed.

Lemma applyCall_serviceIdentifier (call : BindingToSyntax.Call) (b : Binding.t) :
  Binding.serviceIdentifier (BindingToSyntax.applyCall call b) = Binding.serviceIdentifier b.
Proof. destruct call; reflexivity. Qed.


Lemma loadEntry_options (moduleId : string)
  (entry : ServiceIdentifier * list BindingToSyntax.Call) (c : Container.t) :
  Container.options (loadEntry moduleId entry c) = Container.options c.
Proof. reflexivity. Qed.

Lemma loadEntry_defaultBindingScope (moduleId : string)
  (entry : ServiceIdentifier * list BindingToSyntax.Call) (c : Container.t) :
  defaultBindingScope (loadEntry moduleId entry c) = defaultBindingScope c.
Proof. reflexivity. Qed.

Lemma loadEntry_bindingsOf (moduleId : string)
  (entry : ServiceIdentifier * list BindingToSyntax.Call) (c : Container.t)
  (id : ServiceIdentifier) :
  Lookup.bindingsOf id (Container._bindingDictionary (loadEntry moduleId entry c))
  = Lookup.bindingsOf id (Container._bindingDictionary c)
    ++ (if ServiceIdentifier_eqb (fst entry) id
        then [moduleBinding (defaultBindingScope c) moduleId entry] else []).
Proof.
  destruct entry as [X calls]. unfold loadEntry, Container.bindFunction. simpl.
  destruct (ServiceIdentifier_eqb X id) eqn:E.
  - apply ServiceIdentifier_eqb_eq in E. subst id.
    change X with (BindingToSyntax.refIdentifier
                     (BindingToSyntax.mk X
                        (List.length (Lookup.bindingsOf X (Container._bindingDictionary c)))))
      at 1.
    rewrite bindingsOf_configure_same. simpl.
    rewrite bindingsOf_update_same, bindingsOf_add_same.
    rewrite updateNth_last, updateNth_last. reflexivity.
  - apply ServiceIdentifier_eqb_neq in E.
    rewrite bindingsOf_configure_other by (simpl; congruence).
    rewrite bindingsOf_update_other by congruence.
    rewrite bindingsOf_add_other by congruence.
    rewrite app_nil_r. reflexivity.
Qed.

Lemma runRegistry_fold (moduleId : string)
  (registry : list (ServiceIdentifier * list BindingToSyntax.Call)) (c : Container.t) :
  Container.runRegistry moduleId registry c
  = fold_left (fun acc entry => loadEntry moduleId entry acc) registry c.
Proof. reflexivity. Qed.

Lemma runRegistry_options (moduleId : string)
  (registry : list (ServiceIdentifier * list BindingToSyntax.Call)) (c : Container.t) :
  Container.options (Container.runRegistry moduleId registry c) = Container.options c.
Proof.
  rewrite runRegistry_fold. revert c.
  induction registry as [|entry rest IH]; intro c; simpl; [reflexivity|].
  rewrite IH. apply loadEntry_options.
Qed.

(** What [module.registry(bindFunction)] leaves under each identifier. *)
Lemma runRegistry_bindingsOf (moduleId : string)
  (registry : list (ServiceIdentifier * list BindingToSyntax.Call)) (c : Container.t)
  (id : ServiceIdentifier) :
  Lookup.bindingsOf id (Container._bindingDictionary (Container.runRegistry moduleId registry c))
  = Lookup.bindingsOf id (Container._bindingDictionary c)
    ++ map (moduleBinding (defaultBindingScope c) moduleId) (entriesFor id registry).
Proof.
  rewrite runRegistry_fold. revert c.
  induction registry as [|entry rest IH]; intro c; simpl.
  - rewrite app_nil_r. reflexivity.
  - rewrite IH, loadEntry_bindingsOf, loadEntry_defaultBindingScope.
    destruct (ServiceIdentifier_eqb (fst entry) id); simpl.
    + rewrite <- app_assoc. reflexivity.
    + rewrite app_nil_r. reflexivity.
Qed.


Lemma hasKey_bindingsOf_nonempty (id : ServiceIdentifier) (l : Lookup.t) :
  Lookup.bindingsOf id l <> [] -> Lookup.hasKey id l = true.
Proof.
  rewrite hasKey_find. unfold Lookup.bindingsOf.
  destruct (Lookup.find id l); [reflexivity|]. intro H. contradiction.
Qed.




(* ================================================================== *)
(** * [merge] *)
(* ================================================================== *)

Lemma copyDictionary_fold (origing destination : Lookup.t) :
  Container.copyDictionary origing destination
  = (origing, fold_left addClone (Lookup.allBindings origing) destination).
Proof.
  unfold Container.copyDictionary, Lookup.traverse, Lookup.allBindings. f_equal.
  revert destination.
  induction origing as [|[k bs] rest IH]; intro destination; simpl; [reflexivity|].
  rewrite fold_left_app. apply IH.
Qed.

Lemma bindingsOf_add (id id' : ServiceIdentifier) (b : Binding.t) (l : Lookup.t) :
  Lookup.bindingsOf id (Lookup.add id' b l)
  = Lookup.bindingsOf id l ++ (if ServiceIdentifier_eqb id' id then [b] else []).
Proof.
  destruct (ServiceIdentifier_eqb id' id) eqn:E.
  - apply ServiceIdentifier_eqb_eq in E. subst. apply bindingsOf_add_same.
  - apply ServiceIdentifier_eqb_neq in E.
    rewrite bindingsOf_add_other by congruence. rewrite app_nil_r. reflexivity.
Qed.

Lemma bindingsOf_fold_addClone (id : ServiceIdentifier) (bs : list Binding.t) (l : Lookup.t) :
  Lookup.bindingsOf id (fold_left addClone bs l)
  = Lookup.bindingsOf id l
    ++ map Binding.clone
         (filter (fun b => ServiceIdentifier_eqb (Binding.serviceIdentifier b) id) bs).
Proof.
  revert l. induction bs as [|b bs IH]; intro l; simpl.
  - rewrite app_nil_r. reflexivity.
  - rewrite IH. unfold addClone at 1. rewrite bindingsOf_add.
    destruct (ServiceIdentifier_eqb (Binding.serviceIdentifier b) id); simpl.
    + rewrite <- app_assoc. reflexivity.
    + rewrite app_nil_r. reflexivity.
Qed.

Lemma find_None_not_key (id : ServiceIdentifier) (l : Lookup.t) :
  ~ In id (Lookup.keys l) -> Lookup.find id l = None.
Proof.
  induction l as [|[k bs] rest IH]; simpl; intro H; [reflexivity|].
  destruct (ServiceIdentifier_eqb k id) eqn:E.
  - apply ServiceIdentifier_eqb_eq in E. exfalso. apply H. left. exact E.
  - apply IH. intro Hin. apply H. right. exact Hin.
Qed.

Lemma filter_all {A : Type} (p : A -> bool) (xs : list A) :
  Forall (fun x => p x = true) xs -> filter p xs = xs.
Proof.
  induction 1 as [|x xs Hx _ IH]; simpl; [reflexivity|].
  rewrite Hx, IH. reflexivity.
Qed.

Lemma filter_none {A : Type} (p : A -> bool) (xs : list A) :
  Forall (fun x => p x = false) xs -> filter p xs = [].
Proof.
  induction 1 as [|x xs Hx _ IH]; simpl; [reflexivity|].
  rewrite Hx, IH. reflexivity.
Qed.

(** In a well-keyed registry the bindings of an identifier are those found
    under its key. *)
Lemma wellKeyed_bindingsFor (id : ServiceIdentifier) (l : Lookup.t) :
  wellKeyed l -> bindingsFor id l = Lookup.bindingsOf id l.
Proof.
  unfold wellKeyed, bindingsFor, Lookup.allBindings, Lookup.bindingsOf.
  induction l as [|[k bs] rest IH]; simpl; intros [Hnd Hall]; [reflexivity|].
  inversion Hnd as [|? ? Hnotin Hnd']; subst.
  inversion Hall as [|? ? Hbs Hrest]; subst. simpl in Hbs.
  rewrite filter_app.
  destruct (ServiceIdentifier_eqb k id) eqn:E.
  - apply ServiceIdentifier_eqb_eq in E. subst k.
    rewrite (filter_all _ bs).
    + rewrite (filter_none _ (List.concat (map snd rest))); [apply app_nil_r|].
      apply Forall_concat. apply Forall_map.
      apply Forall_forall. intros [k' bs'] Hin. simpl.
      rewrite Forall_forall in Hrest. specialize (Hrest _ Hin). simpl in Hrest.
      apply Forall_forall. intros b Hb.
      rewrite Forall_forall in Hrest. rewrite (Hrest _ Hb).
      apply ServiceIdentifier_eqb_neq. intro Heq. subst k'.
      apply Hnotin. unfold Lookup.keys. apply in_map_iff.
      exists (id, bs'). split; [reflexivity|exact Hin].
    + apply Forall_forall. intros b Hb. rewrite Forall_forall in Hbs.
      rewrite (Hbs _ Hb). apply ServiceIdentifier_eqb_refl.
  - rewrite (filter_none _ bs).
    + simpl. apply IH. split; assumption.
    + apply Forall_forall. intros b Hb. rewrite Forall_forall in Hbs.
      rewrite (Hbs _ Hb). exact E.
Qed.

Lemma keys_add (id k : ServiceIdentifier) (b : Binding.t) (l : Lookup.t) :
  In k (Lookup.keys (Lookup.add id b l)) -> k = id \/ In k (Lookup.keys l).
Proof.
  induction l as [|[k' bs] rest IH]; simpl.
  - intros [H|[]]. left. congruence.
  - destruct (ServiceIdentifier_eqb k' id); simpl.
    + intro H. right. exact H.
    + intros [H|H]; [right; left; exact H|].
      destruct (IH H) as [H'|H']; [left; exact H'|right; right; exact H'].
Qed.

(** [add] keeps a registry well keyed when the binding goes under its own
    identifier. *)
Lemma wellKeyed_add (b : Binding.t) (l : Lookup.t) :
  wellKeyed l -> wellKeyed (Lookup.add (Binding.serviceIdentifier b) b l).
Proof.
  unfold wellKeyed.
  induction l as [|[k bs] rest IH]; simpl; intros [Hnd Hall].
  - split.
    + constructor; [intros []|constructor].
    + constructor; [|constructor]. simpl. constructor; [reflexivity|constructor].
  - inversion Hnd as [|? ? Hnotin Hnd']; subst.
    inversion Hall as [|? ? Hbs Hrest]; subst. simpl in Hbs.
    destruct (ServiceIdentifier_eqb k (Binding.serviceIdentifier b)) eqn:E; simpl.
    + split; [exact Hnd|].
      constructor; [|exact Hrest]. simpl.
      apply Forall_app. split; [exact Hbs|].
      constructor; [|constructor].
      apply ServiceIdentifier_eqb_eq in E. congruence.
    + destruct (IH (conj Hnd' Hrest)) as [Hnd2 Hall2].
      split.
      * constructor; [|exact Hnd2].
        intro Hin. apply keys_add in Hin. destruct Hin as [Hin|Hin].
        -- apply ServiceIdentifier_eqb_neq in E. contradiction.
        -- contradiction.
      * constructor; [exact Hbs|exact Hall2].
Qed.

Lemma wellKeyed_fold_addClone (bs : list Binding.t) (l : Lookup.t) :
  wellKeyed l -> wellKeyed (fold_left addClone bs l).
Proof.
  revert l. induction bs as [|b bs IH]; intros l H; simpl; [exact H|].
  apply IH. unfold addClone.
  change (Binding.serviceIdentifier b) with (Binding.serviceIdentifier (Binding.clone b)).
  apply wellKeyed_add. exact H.
Qed.

Lemma wellKeyed_empty : wellKeyed Lookup.empty.
Proof. split; constructor. Qed.

(** What [bind] does keeps the registry well keyed. *)
Lemma wellKeyed_bind (id : ServiceIdentifier) (c : Container.t) :
  wellKeyed (Container._bindingDictionary c) ->
  wellKeyed (Container._bindingDictionary (fst (Container.bind id c))).
Proof.
  intro H. rewrite bind_dictionary.
  set (b := Binding.new id _).
  change id with (Binding.serviceIdentifier b) at 1.
  apply wellKeyed_add. exact H.
Qed.

(** The registry [merge] builds, for any two containers: under each
    identifier, the clones of the first container's bindings of that
    identifier, then those of the second. *)
Lemma merge_registry (g : string) (a b : Container.t) :
  exists m,
    Container.merge g a b
    = Ok (m, (Container._bindingDictionary a, Container._bindingDictionary b))
    /\ Container._bindingDictionary m
       = fold_left addClone (Lookup.allBindings (Container._bindingDictionary b))
           (fold_left addClone (Lookup.allBindings (Container._bindingDictionary a))
                      Lookup.empty)
    /\ Container._middleware m = None
    /\ Container._snapshots m = []
    /\ Container._parentContainer m = None
    /\ ContainerOptions.defaultScope (Container.options m)
       = BindingScopeEnum.value BindingScopeEnum.Transient.
Proof.
  unfold Container.merge. rewrite new_without_options. unfold bindR.
  rewrite (copyDictionary_fold (Container._bindingDictionary a)).
  rewrite (copyDictionary_fold (Container._bindingDictionary b)).
  eexists. split; [reflexivity|]. simpl. repeat split.
Qed.

(** C6.  [merge(a, b)] returns a new container whose registry holds, under
    each identifier, a clone of every binding of [a] for that identifier
    followed by a clone of every binding of [b] for it, each group in the
    order of its source; the registries of [a] and [b] are as they were.
    When every binding of [a] and [b] sits under its own identifier, as
    [bind], [load] and [merge] leave them, these are the clones of what [a]
    has under the identifier followed by the clones of what [b] has. *)
Theorem merge_clones_first_then_second (g : string) (a b : Container.t) :
  exists m,
    Container.merge g a b
    = Ok (m, (Container._bindingDictionary a, Container._bindingDictionary b))
    /\ (forall id,
           Lookup.bindingsOf id (Container._bindingDictionary m)
           = map Binding.clone (bindingsFor id (Container._bindingDictionary a))
             ++ map Binding.clone (bindingsFor id (Container._bindingDictionary b)))
    /\ (wellKeyed (Container._bindingDictionary a) ->
        wellKeyed (Container._bindingDictionary b) ->
        forall id,
          Lookup.bindingsOf id (Container._bindingDictionary m)
          = map Binding.clone (Lookup.bindingsOf id (Container._bindingDictionary a))
            ++ map Binding.clone (Lookup.bindingsOf id (Container._bindingDictionary b)))
    /\ wellKeyed (Container._bindingDictionary m)
    /\ Container._parentContainer m = None
    /\ Container._middleware m = None.
Proof.
  destruct (merge_registry g a b) as [m [Hm [Hd [Hmw [_ [Hp _]]]]]].
  assert (Hfor : forall id,
             Lookup.bindingsOf id (Container._bindingDictionary m)
             = map Binding.clone (bindingsFor id (Container._bindingDictionary a))
               ++ map Binding.clone (bindingsFor id (Container._bindingDictionary b))).
  { intro id. rewrite Hd. rewrite !bindingsOf_fold_addClone. reflexivity. }
  exists m. split; [exact Hm|]. split; [exact Hfor|].
  split; [|split; [|split; assumption]].
  - intros Ha Hb id. rewrite Hfor.
    rewrite !wellKeyed_bindingsFor by assumption. reflexivity.
  - rewrite Hd. apply wellKeyed_fold_addClone, wellKeyed_fold_addClone, wellKeyed_empty.
Qed.

Lemma merge_clones_first_then_second_witness :
  exists m,
    Container.merge "c3" Samples.armoury Samples.oneWeapon
    = Ok (m, (Container._bindingDictionary Samples.armoury,
              Container._bindingDictionary Samples.oneWeapon))
    /\ Lookup.bindingsOf Samples.Weapon (Container._bindingDictionary m)
       = map Binding.clone
           (Lookup.bindingsOf Samples.Weapon (Container._bindingDictionary Samples.armoury))
         ++ map Binding.clone
              (Lookup.bindingsOf Samples.Weapon
                 (Container._bindingDictionary Samples.oneWeapon)).
Proof.
  assert (Ha : wellKeyed (Container._bindingDictionary Samples.armoury)).
  { split; simpl; repeat constructor. intros []. }
  assert (Hb : wellKeyed (Container._bindingDictionary Samples.oneWeapon)).
  { split; simpl; repeat constructor. intros []. }
  destruct (merge_clones_first_then_second "c3" Samples.armoury Samples.oneWeapon)
    as [m [H1 [_ [H3 _]]]].
  exists m. split; [exact H1|apply (H3 Ha Hb)].
Defined.

(* ================================================================== *)
(** * Planning and resolving *)
(* ================================================================== *)

Lemma mapR_Err {A B : Type} (f : A -> Result B) (xs : list A) (e : Error) :
  mapR f xs = Err e -> exists x, In x xs /\ f x = Err e.
Proof.
  induction xs as [|x xs IH]; simpl; [discriminate|].
  destruct (f x) as [y|e'] eqn:Ex; simpl.
  - destruct (mapR f xs) as [ys|e''] eqn:Em; simpl; [discriminate|].
    intro H. inversion H. subst e''.
    destruct (IH eq_refl) as [x' [Hin Hx']].
    exists x'. split; [right; exact Hin|exact Hx'].
  - intro H. inversion H. subst e'. exists x. split; [left; reflexivity|exact Ex].
Qed.

Lemma mapR_Ok {A B : Type} (f : A -> Result B) (xs : list A) (ys : list B) :
  mapR f xs = Ok ys <-> Forall2 (fun x y => f x = Ok y) xs ys.
Proof.
  revert ys. induction xs as [|x xs IH]; intro ys; simpl.
  - split.
    + intro H. inversion H. constructor.
    + intro H. inversion H. reflexivity.
  - split.
    + destruct (f x) as [y|e] eqn:Ex; simpl; [|discriminate].
      destruct (mapR f xs) as [ys'|e] eqn:Em; simpl; [|discriminate].
      intro H. inversion H. subst ys.
      constructor; [exact Ex|]. apply IH. reflexivity.
    + intro H. inversion H as [|? y ? ys' Hx Hrest]; subst.
      rewrite Hx. simpl. apply IH in Hrest. rewrite Hrest. reflexivity.
Qed.

Lemma mapR_length {A B : Type} (f : A -> Result B) (xs : list A) (ys : list B) :
  mapR f xs = Ok ys -> List.length ys = List.length xs.
Proof.
  intro H. apply mapR_Ok in H. symmetry. eapply Forall2_length. exact H.
Qed.

(** Induction on plan nodes, children included. *)
Lemma Request_nested_ind (P : Request -> Prop) :
  (forall target matched,
      Forall (fun m => Forall P (snd m)) matched -> P (mkRequest target matched)) ->
  forall r, P r.
Proof.
  intro H. fix IH 1. intros [target matched]. apply H.
  induction matched as [|[b children] rest IHm]; constructor; [|exact IHm].
  simpl. induction children as [|child children' IHc]; constructor; [apply IH|exact IHc].
Qed.

Lemma resolveBinding_error (b : Binding.t) (injections : Result (list Resolved)) (e : Error) :
  (forall e', injections = Err e' -> raisedByResolver e') ->
  Resolver.resolveBinding b injections = Err e -> raisedByResolver e.
Proof.
  intro Hinj. unfold Resolver.resolveBinding.
  assert (Hrun : forall o, run o = Err e -> raisedByResolver e).
  { intros [v|v]; simpl; intro H; inversion H. exact I. }
  assert (Hstrategy :
            match Binding.constructionStrategy b with
            | None => Err (INVALID_BINDING_TYPE (Binding.serviceIdentifier b))
            | Some (Constant v) => Ok v
            | Some (Factory make) => run make
            | Some (ToType impl) => args <- injections ;; run (construct impl args)
            end = Err e -> raisedByResolver e).
  { destruct (Binding.constructionStrategy b) as [[v|make|impl]|].
    - discriminate.
    - apply Hrun.
    - destruct injections as [args|e'] eqn:Ei; simpl.
      + apply Hrun.
      + intro H. inversion H. subst e'. apply Hinj. reflexivity.
    - intro H. inversion H. exact I. }
  destruct (Binding.scope b); try exact Hstrategy.
  destruct (Binding.cachedInstance b); [discriminate|exact Hstrategy].
Qed.

(** The resolver never answers with an error of the planner. *)
Lemma resolveRequest_error (r : Request) (e : Error) :
  Resolver.resolveRequest r = Err e -> raisedByResolver e.
Proof.
  revert e. induction r as [target matched IH] using Request_nested_ind. intro e.
  assert (Hm : forall m, In m matched ->
                         forall e', Resolver.resolveMatched m = Err e' -> raisedByResolver e').
  { intros [b children] Hin e'. unfold Resolver.resolveMatched. simpl.
    apply resolveBinding_error. intros e'' He''.
    apply mapR_Err in He''. destruct He'' as [child [Hc He'']].
    rewrite Forall_forall in IH. specialize (IH _ Hin). simpl in IH.
    rewrite Forall_forall in IH. exact (IH _ Hc _ He''). }
  simpl.
  destruct (Target.isArray target).
  - change (fun m : Binding.t * list Request =>
              let '(b, children) := m in
              Resolver.resolveBinding b (mapR Resolver.resolveRequest children))
      with (fun m : Binding.t * list Request =>
              match m with
              | (b, children) =>
                  Resolver.resolveBinding b (mapR Resolver.resolveRequest children)
              end).
    destruct (mapR _ matched) as [vs|e'] eqn:Em; simpl; [discriminate|].
    intro H. inversion H. subst e'.
    apply mapR_Err in Em. destruct Em as [[b children] [Hin Hx]].
    exact (Hm _ Hin _ Hx).
  - destruct matched as [|[b children] rest].
    + intro H. inversion H. exact I.
    + destruct (Resolver.resolveBinding b (mapR Resolver.resolveRequest children))
        as [v|e'] eqn:Eb; simpl; [discriminate|].
      intro H. inversion H. subst e'.
      exact (Hm (b, children) (or_introl eq_refl) _ Eb).
Qed.


Lemma onPath_In (id : ServiceIdentifier) (path : list ServiceIdentifier) :
  Planner.onPath id path = true <-> In id path.
Proof.
  unfold Planner.onPath. rewrite existsb_exists. split.
  - intros [x [Hin Hx]]. apply ServiceIdentifier_eqb_eq in Hx. subst. exact Hin.
  - intro H. exists id. split; [exact H|apply ServiceIdentifier_eqb_refl].
Qed.

Lemma selectBindings_error (avoid : bool) (target : Target.t) (chain : Registries) (e : Error) :
  Planner.selectBindings avoid target chain = Err e ->
  turnsDown (Target.serviceIdentifier target) e.
Proof.
  unfold Planner.selectBindings, turnsDown.
  destruct (Planner.getBindings avoid target chain) as [|b [|b' rest]].
  - destruct (Target.isArray target && _); [discriminate|].
    intro H. inversion H. left. reflexivity.
  - discriminate.
  - destruct (Target.isArray target); [discriminate|].
    intro H. inversion H. right. reflexivity.
Qed.





Lemma mapR_ext {A B : Type} (f g : A -> Result B) (xs : list A) :
  (forall x, f x = g x) -> mapR f xs = mapR g xs.
Proof.
  intro H. induction xs as [|x xs IH]; simpl; [reflexivity|].
  rewrite H, IH. reflexivity.
Qed.

(** Mapping one fallible step over a list and then a second one over the
    results succeeds exactly when both steps succeed on every element. *)
Lemma mapR_then_mapR {A B C : Type} (f : A -> Result B) (g : B -> Result C)
  (xs : list A) (zs : list C) :
  (ys <- mapR f xs ;; mapR g ys) = Ok zs
  <-> Forall2 (fun x z => (y <- f x ;; g y) = Ok z) xs zs.
Proof.
  revert zs. induction xs as [|x xs IH]; intro zs; simpl.
  - split; intro H; inversion H; [constructor|reflexivity].
  - split.
    + destruct (f x) as [y|e] eqn:Ex; simpl; [|discriminate].
      destruct (mapR f xs) as [ys|e] eqn:Em; simpl; [|discriminate].
      destruct (g y) as [z|e] eqn:Ey; simpl; [|discriminate].
      destruct (mapR g ys) as [zs'|e] eqn:Eg; simpl; [|discriminate].
      intro H. inversion H. subst zs.
      constructor.
      * rewrite Ex. simpl. exact Ey.
      * apply IH. simpl. exact Eg.
    + intro H. inversion H as [|? z ? zs' Hx Hrest]; subst.
      destruct (f x) as [y|e]; simpl in Hx; [|discriminate].
      apply IH in Hrest.
      destruct (mapR f xs) as [ys|e]; simpl in Hrest |- *; [|discriminate].
      rewrite Hx. simpl. rewrite Hrest. reflexivity.
Qed.

Lemma resolveRequest_multiple (target : Target.t) (matched : list (Binding.t * list Request)) :
  Target.isArray target = true ->
  Resolver.resolveRequest (mkRequest target matched)
  = (vs <- mapR Resolver.resolveMatched matched ;; Ok (Multiple vs)).
Proof.
  intro H. simpl. rewrite H.
  erewrite mapR_ext; [reflexivity|].
  intros [b children]. reflexivity.
Qed.

Lemma resolveRequest_single (target : Target.t) (m : Binding.t * list Request)
  (rest : list (Binding.t * list Request)) :
  Target.isArray target = false ->
  Resolver.resolveRequest (mkRequest target (m :: rest))
  = (v <- Resolver.resolveMatched m ;; Ok (Single v)).
Proof. intro H. simpl. rewrite H. destruct m as [b children]. reflexivity. Qed.

Lemma planRequest_root (fuel : nat) (chain : Registries) (avoid : bool) (target : Target.t) :
  Planner.planRequest (S fuel) chain [] avoid target
  = (bs <- Planner.selectBindings avoid target chain ;;
     matched <- mapR (fun b =>
                  children <-
                    match Binding.constructionStrategy b with
                    | Some (ToType impl) =>
                        mapR (Planner.planRequest fuel chain
                                [Target.serviceIdentifier target] false)
                             (dependencies impl)
                    | _ => Ok []
                    end ;;
                  Ok (b, children)) bs ;;
     Ok (mkRequest target matched)).
Proof. reflexivity. Qed.

(** Without middleware a get-style call selects the bindings of the root
    request, plans each of them and resolves the plan. *)
Lemma _get_without_middleware (avoid multi : bool) (targetType : TargetTypeEnum.t)
  (id : ServiceIdentifier) (key value : Value) (c : Container.t) :
  Container._middleware c = None ->
  Container._get avoid multi targetType id key value c
  = (bs <- Planner.selectBindings avoid
             (Planner.createTarget multi targetType id key value)
             (Container.registries c) ;;
     matched <- mapR (planMatched id c) bs ;;
     Resolver.resolveRequest
       (mkRequest (Planner.createTarget multi targetType id key value) matched)).
Proof.
  intro Hm. unfold Container._get. rewrite Hm.
  unfold Container._planAndResolve, Planner.plan.
  cbn [NextArgs.isMultiInject NextArgs.targetType NextArgs.serviceIdentifier
       NextArgs.key NextArgs.value NextArgs.avoidConstraints
       NextArgs.contextInterceptor].
  rewrite planRequest_root.
  destruct (Planner.selectBindings _ _ _) as [bs|e]; [|reflexivity].
  cbn [bindR].
  change (mapR _ bs) with (mapR (planMatched id c) bs).
  destruct (mapR (planMatched id c) bs) as [matched|e]; reflexivity.
Qed.

Lemma planMatched_then_resolve (id : ServiceIdentifier) (c : Container.t) (b : Binding.t) :
  (m <- planMatched id c b ;; Resolver.resolveMatched m) = resolvedValue id c b.
Proof.
  unfold planMatched, resolvedValue.
  destruct (planChildren id c b); reflexivity.
Qed.

(** What [get(id)] does without middleware, by the number of bindings that
    match. *)
Lemma get_by_cardinality (id : ServiceIdentifier) (c : Container.t) :
  Container._middleware c = None ->
  Container.get id c
  = match matching id c with
    | [] => Err (NOT_REGISTERED id)
    | [b] => v <- resolvedValue id c b ;; Ok (Single v)
    | _ => Err (AMBIGUOUS_MATCH id)
    end.
Proof.
  intro Hm. unfold Container.get. rewrite _get_without_middleware by exact Hm.
  unfold Planner.selectBindings, matching, getTarget.
  destruct (Planner.getBindings false _ (Container.registries c)) as [|b [|b' rest]];
    try reflexivity.
  cbn [bindR mapR].
  rewrite <- planMatched_then_resolve.
  destruct (planMatched id c b) as [m|e]; [|reflexivity].
  cbn [bindR]. rewrite resolveRequest_single by reflexivity. reflexivity.
Qed.

(** What [getAll(id)] does without middleware. *)
Lemma getAll_by_candidates (id : ServiceIdentifier) (c : Container.t) :
  Container._middleware c = None ->
  Container.getAll id c
  = match candidatesAll id c with
    | [] =>
        if Planner.isRegistered id (Container.registries c) then Ok (Multiple [])
        else Err (NOT_REGISTERED id)
    | bs =>
        vs <- (matched <- mapR (planMatched id c) bs ;;
               mapR Resolver.resolveMatched matched) ;;
        Ok (Multiple vs)
    end.
Proof.
  intro Hm. unfold Container.getAll. rewrite _get_without_middleware by exact Hm.
  unfold Planner.selectBindings, candidatesAll, getAllTarget.
  destruct (Planner.getBindings true _ (Container.registries c)) as [|b [|b' rest]].
  - cbn [Target.isArray Planner.createTarget andb Target.serviceIdentifier].
    destruct (Planner.isRegistered id (Container.registries c)); reflexivity.
  - cbn [bindR].
    destruct (mapR (planMatched id c) [b]) as [matched|e]; [|reflexivity].
    cbn [bindR]. rewrite resolveRequest_multiple by reflexivity. reflexivity.
  - cbn [Target.isArray Planner.createTarget bindR].
    destruct (mapR (planMatched id c) (b :: b' :: rest)) as [matched|e]; [|reflexivity].
    cbn [bindR]. rewrite resolveRequest_multiple by reflexivity. reflexivity.
Qed.


Lemma getBindings_nearest (avoid : bool) (target : Target.t) (l : Lookup.t)
  (parents : Registries) :
  Planner.activeBindings avoid target l <> [] ->
  Planner.getBindings avoid target (l :: parents) = Planner.activeBindings avoid target l.
Proof.
  intro H. simpl. destruct (Planner.activeBindings avoid target l); [contradiction|reflexivity].
Qed.

(** ** The recursion budget of [plan] is enough *)

Lemma find_Some_key (id : ServiceIdentifier) (l : Lookup.t) (bs : list Binding.t) :
  Lookup.find id l = Some bs -> In id (Lookup.keys l).
Proof.
  induction l as [|[k bs'] rest IH]; simpl; [discriminate|].
  destruct (ServiceIdentifier_eqb k id) eqn:E.
  - intros _. left. apply ServiceIdentifier_eqb_eq. exact E.
  - intro H. right. apply IH. exact H.
Qed.

Lemma activeBindings_key (avoid : bool) (target : Target.t) (l : Lookup.t) (b : Binding.t) :
  In b (Planner.activeBindings avoid target l) ->
  In (Target.serviceIdentifier target) (Lookup.keys l).
Proof.
  unfold Planner.activeBindings, Lookup.bindingsOf.
  destruct (Lookup.find (Target.serviceIdentifier target) l) as [bs|] eqn:E.
  - intros _. eapply find_Some_key. exact E.
  - destruct avoid; simpl; intros [].
Qed.

Lemma getBindings_key (avoid : bool) (target : Target.t) (chain : Registries) (b : Binding.t) :
  In b (Planner.getBindings avoid target chain) ->
  In (Target.serviceIdentifier target) (Planner.allKeys chain).
Proof.
  unfold Planner.allKeys.
  induction chain as [|l parents IH]; simpl; [intros []|].
  destruct (Planner.activeBindings avoid target l) as [|b' bs] eqn:E.
  - intro H. apply in_or_app. right. apply IH. exact H.
  - intro H. apply in_or_app. left.
    apply (activeBindings_key avoid target l b'). rewrite E. left. reflexivity.
Qed.

Lemma selectBindings_In (avoid : bool) (target : Target.t) (chain : Registries)
  (bs : list Binding.t) (b : Binding.t) :
  Planner.selectBindings avoid target chain = Ok bs -> In b bs ->
  In b (Planner.getBindings avoid target chain).
Proof.
  unfold Planner.selectBindings.
  destruct (Planner.getBindings avoid target chain) as [|b1 [|b2 rest]].
  - destruct (Target.isArray target && _); [|discriminate].
    intro H. inversion H. intros [].
  - intro H. inversion H. auto.
  - destruct (Target.isArray target); [|discriminate].
    intro H. inversion H. auto.
Qed.

Lemma planRequest_enough_fuel (chain : Registries) (fuel : nat) :
  forall (path : list ServiceIdentifier) (avoid : bool) (target : Target.t),
    NoDup path ->
    incl path (Planner.allKeys chain) ->
    List.length (Planner.allKeys chain) < fuel + List.length path ->
    Planner.planRequest fuel chain path avoid target <> Err PLAN_DEPTH_EXHAUSTED.
Proof.
  induction fuel as [|fuel IH]; intros path avoid target Hnd Hincl Hlen.
  - exfalso. pose proof (NoDup_incl_length Hnd Hincl). simpl in Hlen. lia.
  - simpl.
    destruct (Planner.onPath (Target.serviceIdentifier target) path) eqn:Eon;
      [discriminate|].
    destruct (Planner.selectBindings avoid target chain) as [bs|e] eqn:Es; simpl.
    + destruct (mapR _ bs) as [matched|e] eqn:Em; simpl; [discriminate|].
      intro H. inversion H. subst e.
      apply mapR_Err in Em. destruct Em as [b [Hb Hplan]].
      destruct (Binding.constructionStrategy b) as [[v|make|impl]|]; simpl in Hplan;
        try discriminate.
      destruct (mapR _ (dependencies impl)) as [children|e] eqn:Ec; simpl in Hplan;
        [discriminate|].
      inversion Hplan. subst e.
      apply mapR_Err in Ec. destruct Ec as [dep [_ Hdep]].
      revert Hdep. apply IH.
      * constructor; [|exact Hnd].
        intro Hin. apply onPath_In in Hin. congruence.
      * intros x [Hx|Hx]; [|apply Hincl; exact Hx].
        subst x. apply (getBindings_key avoid target chain b).
        eapply selectBindings_In; eassumption.
      * simpl. lia.
    + intro H. inversion H. subst e.
      apply selectBindings_error in Es. destruct Es; discriminate.
Qed.

(** [plan] always comes back with a context or with an error of the
    planner: the depth it allows for is never exhausted. *)
Lemma plan_never_exhausts (chain : Registries) (isMultiInject : bool)
  (targetType : TargetTypeEnum.t) (id : ServiceIdentifier) (key value : Value)
  (avoidConstraints : bool) :
  Planner.plan chain isMultiInject targetType id key value avoidConstraints
  <> Err PLAN_DEPTH_EXHAUSTED.
Proof.
  unfold Planner.plan.
  destruct (Planner.planRequest _ chain [] avoidConstraints _) as [root|e] eqn:E; simpl;
    [discriminate|].
  intro H. inversion H. subst e. revert E.
  apply planRequest_enough_fuel.
  - constructor.
  - intros x [].
  - simpl. lia.
Qed.

(* ================================================================== *)
(** * [get] and [getAll] *)
(* ================================================================== *)



(** C1 (amended).  On a container without middleware, [getAll(id)] takes
    every binding registered under [id] in the nearest registry of the parent
    chain that has any, in registration order and without asking their
    constraints; it returns their resolved values in that order, as many as
    there are such bindings, whenever each of them plans and resolves.  With
    no such binding it returns the empty sequence if [id] has a key somewhere
    in the chain and fails with the not-registered error otherwise. *)
Theorem getAll_returns_all_registered (c : Container.t) (id : ServiceIdentifier) :
  Container._middleware c = None ->
  (forall l parents,
      Container.registries c = l :: parents ->
      Lookup.bindingsOf id l <> [] ->
      candidatesAll id c = Lookup.bindingsOf id l)
  /\ (candidatesAll id c <> [] ->
      forall vs,
        Container.getAll id c = Ok (Multiple vs)
        <-> Forall2 (fun b v => resolvedValue id c b = Ok v) (candidatesAll id c) vs)
  /\ (forall r,
         Container.getAll id c = Ok r ->
         exists vs, r = Multiple vs
                    /\ List.length vs = List.length (candidatesAll id c))
  /\ (candidatesAll id c = [] ->
      Container.getAll id c
      = if Planner.isRegistered id (Container.registries c) then Ok (Multiple [])
        else Err (NOT_REGISTERED id)).
Proof.
  intro Hm. pose proof (getAll_by_candidates id c Hm) as Hall.
  assert (Hiff : forall bs vs,
             (vs0 <- (matched <- mapR (planMatched id c) bs ;;
                      mapR Resolver.resolveMatched matched) ;;
              Ok (Multiple vs0)) = Ok (Multiple vs)
             <-> Forall2 (fun b v => resolvedValue id c b = Ok v) bs vs).
  { intros bs vs.
    assert (Hstep : Forall2 (fun b v => resolvedValue id c b = Ok v) bs vs
                    <-> Forall2 (fun b v => (m <- planMatched id c b ;;
                                             Resolver.resolveMatched m) = Ok v) bs vs).
    { split; apply Forall2_impl; intros b v; rewrite planMatched_then_resolve; auto. }
    rewrite Hstep, <- mapR_then_mapR.
    destruct (matched <- mapR (planMatched id c) bs ;;
              mapR Resolver.resolveMatched matched) as [vs0|e]; simpl.
    - split; intro H; inversion H; reflexivity.
    - split; discriminate. }
  split; [|split; [|split]].
  - intros l parents Hreg Hne. unfold candidatesAll. rewrite Hreg.
    apply getBindings_nearest. exact Hne.
  - intros Hne vs. rewrite Hall.
    destruct (candidatesAll id c) as [|b bs]; [contradiction|]. apply Hiff.
  - intros r. rewrite Hall.
    destruct (candidatesAll id c) as [|b bs] eqn:Ec.
    + destruct (Planner.isRegistered id (Container.registries c)); [|discriminate].
      intro H. inversion H. exists []. split; reflexivity.
    + intro H.
      destruct (matched <- mapR (planMatched id c) (b :: bs) ;;
                mapR Resolver.resolveMatched matched) as [vs|e] eqn:E;
        simpl in H; [|discriminate].
      inversion H. exists vs. split; [reflexivity|].
      assert (Hf : Forall2 (fun b v => resolvedValue id c b = Ok v) (b :: bs) vs).
      { apply Hiff. rewrite E. reflexivity. }
      symmetry. eapply Forall2_length. exact Hf.
  - intro Hnil. rewrite Hall, Hnil. reflexivity.
Qed.

Lemma getAll_returns_all_registered_witness :
  Container.getAll Samples.Weapon Samples.armoury
  = Ok (Multiple [Samples.katana; Samples.shuriken])
  /\ List.length [Samples.katana; Samples.shuriken]
     = List.length (Lookup.bindingsOf Samples.Weapon
                      (Container._bindingDictionary Samples.armoury)).
Proof.
  split; [|reflexivity].
  apply (proj1 (proj2 (getAll_returns_all_registered Samples.armoury Samples.Weapon eq_refl))).
  - discriminate.
  - repeat constructor.
Defined.

(** C1, as stated, fails: of the two bindings of [Weapon] only the first has
    a constraint that matches the request of [getAll(Weapon)], which carries
    no tag, and [getAll] returns the values of both. *)
Lemma getAll_ignores_constraints :
  Container._middleware Samples.armoury = None
  /\ Container.getAll Samples.Weapon Samples.armoury
     = Ok (Multiple [Samples.katana; Samples.shuriken])
  /\ map (fun b => Binding.constraint b (getAllTarget Samples.Weapon))
         (Lookup.bindingsOf Samples.Weapon (Container._bindingDictionary Samples.armoury))
     = [true; false]
  /\ List.length (matchingAll Samples.Weapon Samples.armoury) = 1
  /\ List.length [Samples.katana; Samples.shuriken]
     <> List.length (matchingAll Samples.Weapon Samples.armoury).
Proof.
  split; [reflexivity|]. split; [reflexivity|]. split; [reflexivity|].
  split; [reflexivity|]. vm_compute. discriminate.
Qed.

(** Without middleware no get-style call fails for want of planning depth. *)
Lemma _get_never_exhausts (avoid multi : bool) (targetType : TargetTypeEnum.t)
  (id : ServiceIdentifier) (key value : Value) (c : Container.t) :
  Container._middleware c = None ->
  Container._get avoid multi targetType id key value c <> Err PLAN_DEPTH_EXHAUSTED.
Proof.
  intro Hm. unfold Container._get. rewrite Hm. unfold Container._planAndResolve.
  cbn [NextArgs.isMultiInject NextArgs.targetType NextArgs.serviceIdentifier
       NextArgs.key NextArgs.value NextArgs.avoidConstraints
       NextArgs.contextInterceptor].
  destruct (Planner.plan _ _ _ _ _ _ _) as [context|e] eqn:Ep; simpl.
  - intro H. apply resolveRequest_error in H. exact H.
  - intro H. inversion H. subst e. revert Ep. apply plan_never_exhausts.
Qed.

(* ================================================================== *)
(** * Well-keyed registries are an invariant of the container *)
(* ================================================================== *)

Lemma keys_update (id : ServiceIdentifier) (n : nat) (f : Binding.t -> Binding.t)
  (l : Lookup.t) :
  Lookup.keys (Lookup.update id n f l) = Lookup.keys l.
Proof.
  unfold Lookup.keys.
  induction l as [|[k bs] rest IH]; simpl; [reflexivity|].
  destruct (ServiceIdentifier_eqb k id); simpl; [reflexivity|].
  rewrite IH. reflexivity.
Qed.

Lemma Forall_updateNth {A : Type} (P : A -> Prop) (f : A -> A) (n : nat) (xs : list A) :
  (forall x, P x -> P (f x)) -> Forall P xs -> Forall P (Lookup.updateNth n f xs).
Proof.
  intros Hf H. revert n. induction H as [|x xs Hx Hxs IH]; intros [|n]; simpl;
    constructor; auto.
Qed.

Lemma wellKeyed_update (id : ServiceIdentifier) (n : nat) (f : Binding.t -> Binding.t)
  (l : Lookup.t) :
  (forall b, Binding.serviceIdentifier (f b) = Binding.serviceIdentifier b) ->
  wellKeyed l -> wellKeyed (Lookup.update id n f l).
Proof.
  intros Hf [Hnd Hall]. split; [rewrite keys_update; exact Hnd|].
  clear Hnd. induction Hall as [|[k bs] rest Hbs Hrest IH]; simpl; [constructor|].
  destruct (ServiceIdentifier_eqb k id); constructor; try assumption.
  simpl in *. apply Forall_updateNth; [|exact Hbs].
  intros b Hb. rewrite Hf. exact Hb.
Qed.

Lemma wellKeyed_configure (syntax : BindingToSyntax.t) (calls : list BindingToSyntax.Call)
  (l : Lookup.t) :
  wellKeyed l -> wellKeyed (BindingToSyntax.configure syntax calls l).
Proof.
  unfold BindingToSyntax.configure. revert l.
  induction calls as [|call calls IH]; intros l H; simpl; [exact H|].
  apply IH. apply wellKeyed_update; [|exact H].
  intro b. apply applyCall_serviceIdentifier.
Qed.

Lemma wellKeyed_removeByCondition (p : Binding.t -> bool) (l : Lookup.t) :
  wellKeyed l -> wellKeyed (Lookup.removeByCondition p l).
Proof.
  intros [Hnd Hall]. split.
  - unfold Lookup.keys, Lookup.removeByCondition. rewrite map_map. simpl. exact Hnd.
  - clear Hnd. unfold Lookup.removeByCondition.
    induction Hall as [|[k bs] rest Hbs Hrest IH]; simpl; constructor; [|exact IH].
    simpl in *. apply Forall_forall. intros b Hb. apply filter_In in Hb.
    rewrite Forall_forall in Hbs. apply Hbs. tauto.
Qed.

Lemma wellKeyed_remove (id : ServiceIdentifier) (l l' : Lookup.t) :
  wellKeyed l -> Lookup.remove id l = Ok l' -> wellKeyed l'.
Proof.
  intros [Hnd Hall]. unfold Lookup.remove.
  destruct (Lookup.hasKey id l); [|discriminate].
  intro H. inversion H. subst l'. clear H. split.
  - unfold Lookup.keys in *.
    induction l as [|[k bs] rest IH]; simpl; [constructor|].
    inversion Hnd as [|? ? Hnotin Hnd']; subst. inversion Hall; subst.
    destruct (ServiceIdentifier_eqb k id); simpl; [apply IH; assumption|].
    constructor; [|apply IH; assumption].
    intro Hin. apply Hnotin. apply in_map_iff in Hin.
    destruct Hin as [kv [Hk Hin]]. apply filter_In in Hin.
    apply in_map_iff. exists kv. tauto.
  - apply Forall_forall. intros kv Hin. apply filter_In in Hin.
    rewrite Forall_forall in Hall. apply Hall. tauto.
Qed.

Lemma wellKeyed_clone (l : Lookup.t) : wellKeyed l -> wellKeyed (Lookup.clone l).
Proof.
  intros [Hnd Hall]. split.
  - unfold Lookup.keys, Lookup.clone. rewrite map_map. simpl. exact Hnd.
  - clear Hnd. unfold Lookup.clone.
    induction Hall as [|[k bs] rest Hbs Hrest IH]; simpl; constructor; [|exact IH].
    simpl in *. apply Forall_map. revert Hbs. apply Forall_impl.
    intros b Hb. exact Hb.
Qed.

(** Every registry mutation, [load] and [unload] keep the registry well
    keyed. *)
Lemma wellKeyed_mutate (m : Mutation) (c : Container.t) :
  wellKeyed (Container._bindingDictionary c) ->
  wellKeyed (Container._bindingDictionary (mutate m c)).
Proof.
  intro H. destruct m as [id calls|id|]; simpl.
  - apply wellKeyed_configure.
    change (Lookup.add id _ (Container._bindingDictionary c))
      with (Container._bindingDictionary (fst (Container.bind id c))).
    apply wellKeyed_bind. exact H.
  - unfold Container.unbind.
    destruct (Lookup.remove id (Container._bindingDictionary c)) as [l|e] eqn:E;
      [|exact H].
    simpl. eapply wellKeyed_remove; eassumption.
  - apply wellKeyed_empty.
Qed.

Lemma wellKeyed_loadEntry (moduleId : string)
  (entry : ServiceIdentifier * list BindingToSyntax.Call) (c : Container.t) :
  wellKeyed (Container._bindingDictionary c) ->
  wellKeyed (Container._bindingDictionary (loadEntry moduleId entry c)).
Proof.
  intro H. unfold loadEntry, Container.bindFunction. simpl.
  apply wellKeyed_configure. apply wellKeyed_update; [reflexivity|].
  change (Lookup.add (fst entry) _ (Container._bindingDictionary c))
    with (Container._bindingDictionary (fst (Container.bind (fst entry) c))).
  apply wellKeyed_bind. exact H.
Qed.

Lemma wellKeyed_load (modules : list ContainerModule.t) (c : Container.t) :
  wellKeyed (Container._bindingDictionary c) ->
  wellKeyed (Container._bindingDictionary (Container.load modules c)).
Proof.
  unfold Container.load. revert c.
  induction modules as [|m modules IH]; intros c H; simpl; [exact H|].
  apply IH. rewrite runRegistry_fold.
  generalize (ContainerModule.registry m) as entries. intro entries. revert c H.
  induction entries as [|entry entries IHe]; intros c H; simpl; [exact H|].
  apply IHe. apply wellKeyed_loadEntry. exact H.
Qed.

Lemma wellKeyed_unload (modules : list ContainerModule.t) (c : Container.t) :
  wellKeyed (Container._bindingDictionary c) ->
  wellKeyed (Container._bindingDictionary (Container.unload modules c)).
Proof.
  unfold Container.unload. revert c.
  induction modules as [|m modules IH]; intros c H; simpl; [exact H|].
  apply IH. simpl. apply wellKeyed_removeByCondition. exact H.
Qed.

(* ================================================================== *)
(** * The model at work *)
(* ================================================================== *)

(** A child container resolves what only its parent binds, and is not
    itself bound. *)
Example child_resolves_from_parent :
  exists child,
    Container.createChild "c2" Samples.oneWeapon = Ok child
    /\ Container.get Samples.Weapon child = Ok (Single Samples.katana)
    /\ Container.isBound Samples.Weapon child = false.
Proof. eexists. split; [reflexivity|]. split; reflexivity. Qed.

(** A to-type binding is constructed from its resolved dependency. *)
Example ninja_gets_the_katana :
  Container.get Samples.Warrior Samples.dojo
  = Ok (Single (VObject 3 [("weapon", Samples.katana)])).
Proof. reflexivity. Qed.

(** A dependency that is not bound fails the whole call, naming the
    dependency. *)
Example ninja_without_weapon :
  Container.get Samples.Warrior
    (mutateAll [MBind Samples.Warrior [BindingToSyntax.to Samples.Ninja]] Samples.fresh)
  = Err (NOT_REGISTERED Samples.Weapon).
Proof. reflexivity. Qed.

(** A registration cycle is reported, whichever end is asked for. *)
Example chicken_and_egg :
  Container.get (IdString "Egg") Samples.farm
  = Err (CIRCULAR_DEPENDENCY [IdString "Egg"; IdString "Chicken"; IdString "Egg"])
  /\ Container.get (IdString "Chicken") Samples.farm
     = Err (CIRCULAR_DEPENDENCY [IdString "Chicken"; IdString "Egg"; IdString "Chicken"]).
Proof. split; reflexivity. Qed.

(** The tagged accessors do filter by constraint. *)
Example getAllNamed_filters :
  Container.getAllNamed Samples.Weapon (VString "throwable")
    (mutateAll
       [MBind Samples.Weapon [BindingToSyntax.toConstantValue Samples.katana;
                              BindingToSyntax.when (Samples.targetNamed "sharp")];
        MBind Samples.Weapon [BindingToSyntax.toConstantValue Samples.shuriken;
                              BindingToSyntax.when (Samples.targetNamed "throwable")]]
       Samples.fresh)
  = Ok (Multiple [Samples.shuriken]).
Proof. reflexivity. Qed.

(** A chain that was applied with no middleware still has its result
    checked. *)
Example applied_chain_checks_null :
  Container.get Samples.Weapon
    (Container.applyMiddleware []
       (mutateAll [MBind Samples.Weapon [BindingToSyntax.toConstantValue VNull]]
                  Samples.fresh))
  = Err INVALID_MIDDLEWARE_RETURN
  /\ Container.get Samples.Weapon
       (mutateAll [MBind Samples.Weapon [BindingToSyntax.toConstantValue VNull]]
                  Samples.fresh)
     = Ok (Single VNull).
Proof. split; reflexivity. Qed.

(* ================================================================== *)
(** * Middleware *)
(* ================================================================== *)

Lemma registries_setMiddleware (m : option Next) (c : Container.t) :
  Container.registries (Container.setMiddleware m c) = Container.registries c.
Proof. destruct c. reflexivity. Qed.

Lemma registries_applyMiddleware (ms : list Middleware) (c : Container.t) :
  Container.registries (Container.applyMiddleware ms c) = Container.registries c.
Proof. apply registries_setMiddleware. Qed.

(** X1.  [applyMiddleware] stacks: applying [ms1] and then [ms2] is applying
    [ms1 ++ ms2] at once, and the last middleware of the list is the
    outermost link, wrapped around the chain of those before it. *)
Theorem applyMiddleware_stacks :
  (forall (ms1 ms2 : list Middleware) (c : Container.t),
      Container.applyMiddleware (ms1 ++ ms2) c
      = Container.applyMiddleware ms2 (Container.applyMiddleware ms1 c))
  /\ (forall (ms : list Middleware) (m : Middleware) (c : Container.t),
         Container._middleware (Container.applyMiddleware (ms ++ [m]) c)
         = option_map m (Container._middleware (Container.applyMiddleware ms c))).
Proof.
  split.
  - intros ms1 ms2 c. unfold Container.applyMiddleware. simpl.
    rewrite fold_left_app. destruct c. reflexivity.
  - intros ms m c. unfold Container.applyMiddleware. simpl.
    rewrite fold_left_app. reflexivity.
Qed.

Lemma fold_forwarding (ms : list Middleware) (initial : Next) :
  Forall (fun m : Middleware => forall next, m next = next) ms ->
  fold_left (fun prev (curr : Middleware) => curr prev) ms initial = initial.
Proof.
  induction 1 as [|m ms Hm _ IH]; simpl; [reflexivity|].
  rewrite Hm. exact IH.
Qed.

Lemma _get_with_middleware (avoid multi : bool) (targetType : TargetTypeEnum.t)
  (id : ServiceIdentifier) (key value : Value) (c : Container.t) (chain : Next) :
  Container._middleware c = Some chain ->
  Container._get avoid multi targetType id key value c
  = checked (chain (Container.registries c) (bundle avoid multi targetType id key value)).
Proof. intro H. unfold Container._get. rewrite H. reflexivity. Qed.

Lemma _get_plain (avoid multi : bool) (targetType : TargetTypeEnum.t)
  (id : ServiceIdentifier) (key value : Value) (c : Container.t) :
  Container._middleware c = None ->
  Container._get avoid multi targetType id key value c
  = Container._planAndResolve (Container.registries c)
      (bundle avoid multi targetType id key value).
Proof. intro H. unfold Container._get. rewrite H. reflexivity. Qed.

(** X2.  Middleware that only forwards to the next link changes a get-style
    call in one way: a result that is null or undefined, which the container
    without middleware returns, now fails with the invalid-middleware-return
    error. *)
Theorem forwarding_middleware_only_adds_the_check
  (ms : list Middleware) (c : Container.t)
  (avoid multi : bool) (targetType : TargetTypeEnum.t)
  (id : ServiceIdentifier) (key value : Value) :
  Container._middleware c = None ->
  Forall (fun m : Middleware => forall next, m next = next) ms ->
  Container._get avoid multi targetType id key value (Container.applyMiddleware ms c)
  = checked (Container._get avoid multi targetType id key value c).
Proof.
  intros Hm Hms.
  rewrite (_get_with_middleware _ _ _ _ _ _ _ Container._planAndResolve).
  - rewrite registries_applyMiddleware, (_get_plain _ _ _ _ _ _ _ Hm). reflexivity.
  - unfold Container.applyMiddleware. rewrite Hm. simpl.
    rewrite fold_forwarding by exact Hms. reflexivity.
Qed.

Lemma forwarding_middleware_only_adds_the_check_witness :
  Container.get Samples.Weapon
    (Container.applyMiddleware
       [fun (next : Next) => fun this args => next this args]
       Samples.oneWeapon)
  = checked (Container.get Samples.Weapon Samples.oneWeapon).
Proof.
  apply (forwarding_middleware_only_adds_the_check
           [fun (next : Next) => fun this args => next this args] Samples.oneWeapon
           false false TargetTypeEnum.Variable_ Samples.Weapon VUndefined VUndefined
           eq_refl).
  constructor; [|constructor]. intro next. reflexivity.
Defined.

Lemma planRequest_error (fuel : nat) (chain : Registries) :
  forall (path : list ServiceIdentifier) (avoid : bool) (target : Target.t) (e : Error),
    Planner.planRequest fuel chain path avoid target = Err e -> raisedByPlanner e.
Proof.
  induction fuel as [|fuel IH]; intros path avoid target e; simpl.
  - intro H. inversion H. exact I.
  - destruct (Planner.onPath (Target.serviceIdentifier target) path).
    + intro H. inversion H. exact I.
    + destruct (Planner.selectBindings avoid target chain) as [bs|e'] eqn:Es; simpl.
      * destruct (mapR _ bs) as [matched|e'] eqn:Em; simpl; [discriminate|].
        intro H. inversion H. subst e'.
        apply mapR_Err in Em. destruct Em as [b [_ Hb]].
        destruct (Binding.constructionStrategy b) as [[v|make|impl]|]; simpl in Hb;
          try discriminate.
        destruct (mapR _ (dependencies impl)) as [children|e'] eqn:Ec; simpl in Hb;
          [discriminate|].
        inversion Hb. subst e'.
        apply mapR_Err in Ec. destruct Ec as [dep [_ Hdep]].
        exact (IH _ _ _ _ Hdep).
      * intro H. inversion H. subst e'.
        apply selectBindings_error in Es. destruct Es; subst e; exact I.
Qed.

Lemma _planAndResolve_error (this : Registries) (args : NextArgs.t) (e : Error) :
  Container._planAndResolve this args = Err e ->
  e <> PLAN_DEPTH_EXHAUSTED /\ (raisedByPlanner e \/ raisedByResolver e).
Proof.
  unfold Container._planAndResolve.
  destruct (Planner.plan _ _ _ _ _ _ _) as [context|e'] eqn:Ep; simpl.
  - intro H. apply resolveRequest_error in H.
    split; [|right; exact H]. intro Heq. subst e. exact H.
  - intro H. inversion H. subst e'. split.
    + intro Heq. subst e. revert Ep. apply plan_never_exhausts.
    + left. unfold Planner.plan in Ep.
      destruct (Planner.planRequest _ _ _ _ _) as [root|e'] eqn:Er; simpl in Ep;
        [discriminate|].
      inversion Ep. subst e'. exact (planRequest_error _ _ _ _ _ _ Er).
Qed.

(** X3.  Without middleware a get-style call fails only with an error of
    the planner (not registered, ambiguous match, circular dependency) or of
    the resolver (a binding without strategy, user code that throws): never
    with the invalid-middleware-return error, so a binding to null resolves
    to null. *)
Theorem plain_get_never_checks_the_result
  (avoid multi : bool) (targetType : TargetTypeEnum.t)
  (id : ServiceIdentifier) (key value : Value) (c : Container.t) (e : Error) :
  Container._middleware c = None ->
  Container._get avoid multi targetType id key value c = Err e ->
  e <> INVALID_MIDDLEWARE_RETURN
  /\ e <> PLAN_DEPTH_EXHAUSTED
  /\ (raisedByPlanner e \/ raisedByResolver e).
Proof.
  intros Hm H. rewrite (_get_plain _ _ _ _ _ _ _ Hm) in H.
  destruct (_planAndResolve_error _ _ _ H) as [Hne Hkind].
  split; [|split; assumption].
  intro Heq. subst e. destruct Hkind as [Hk|Hk]; exact Hk.
Qed.

Lemma plain_get_never_checks_the_result_witness :
  Container.get Samples.Warrior Samples.oneWeapon = Err (NOT_REGISTERED Samples.Warrior)
  /\ NOT_REGISTERED Samples.Warrior <> INVALID_MIDDLEWARE_RETURN
  /\ NOT_REGISTERED Samples.Warrior <> PLAN_DEPTH_EXHAUSTED
  /\ (raisedByPlanner (NOT_REGISTERED Samples.Warrior)
      \/ raisedByResolver (NOT_REGISTERED Samples.Warrior)).
Proof.
  split; [reflexivity|].
  apply (plain_get_never_checks_the_result
           false false TargetTypeEnum.Variable_ Samples.Warrior VUndefined VUndefined
           Samples.oneWeapon (NOT_REGISTERED Samples.Warrior) eq_refl eq_refl).
Defined.

(* ================================================================== *)
(** * The snapshot stack *)
(* ================================================================== *)

Lemma sameFrame_refl (c : Container.t) : sameFrame c c.
Proof. repeat split. Qed.

Lemma sameFrame_trans (c c1 c2 : Container.t) :
  sameFrame c c1 -> sameFrame c1 c2 -> sameFrame c c2.
Proof.
  intros [A1 [A2 [A3 A4]]] [B1 [B2 [B3 B4]]]. repeat split; congruence.
Qed.

Lemma sameFrame_fold {A : Type} (step : Container.t -> A -> Container.t) (xs : list A) :
  (forall c x, sameFrame c (step c x)) ->
  forall c, sameFrame c (fold_left step xs c).
Proof.
  intro Hstep. induction xs as [|x xs IH]; intro c; simpl; [apply sameFrame_refl|].
  eapply sameFrame_trans; [apply Hstep|apply IH].
Qed.

Lemma sameFrame_mutate (m : Mutation) (c : Container.t) : sameFrame c (mutate m c).
Proof.
  destruct (mutate_frame m c) as [H1 [_ [H3 [H4 H5]]]]. repeat split; assumption.
Qed.

Lemma sameFrame_load (modules : list ContainerModule.t) (c : Container.t) :
  sameFrame c (Container.load modules c).
Proof.
  unfold Container.load. apply sameFrame_fold. clear c. intros c module.
  rewrite runRegistry_fold. apply sameFrame_fold. clear c. intros c entry.
  repeat split.
Qed.

Lemma sameFrame_unload (modules : list ContainerModule.t) (c : Container.t) :
  sameFrame c (Container.unload modules c).
Proof.
  unfold Container.unload. apply sameFrame_fold. clear c. intros c module. repeat split.
Qed.

Lemma sameFrame_act (a : Action) (c : Container.t) : sameFrame c (act a c).
Proof.
  destruct a as [m|syntax calls|modules|modules|middlewares]; simpl.
  - apply sameFrame_mutate.
  - repeat split.
  - apply sameFrame_load.
  - apply sameFrame_unload.
  - repeat split.
Qed.

Lemma sameFrame_actAll (actions : list Action) (c : Container.t) :
  sameFrame c (actAll actions c).
Proof.
  unfold actAll. apply sameFrame_fold. intros c0 a. apply sameFrame_act.
Qed.

Lemma restore_top (c : Container.t) (below : list ContainerSnapshot.t)
  (top : ContainerSnapshot.t) :
  Container._snapshots c = below ++ [top] ->
  Container.restore c
  = Ok (Container.mk (Container.guid c) (Container.options c)
          (ContainerSnapshot.middleware top) (ContainerSnapshot.bindings top)
          below (Container._parentContainer c)).
Proof.
  intro H. unfold Container.restore. rewrite H, pop_snoc, length_app.
  simpl. rewrite Nat.add_comm. reflexivity.
Qed.

(** X4.  [restore()] fails exactly when the snapshot stack is empty;
    otherwise it takes the most recent snapshot off the stack, installs its
    registry and its middleware, and leaves the older snapshots, the options
    and the parent as they are. *)
Theorem restore_pops_most_recent (c : Container.t) :
  (isErr (Container.restore c) = true <-> Container._snapshots c = [])
  /\ (forall below top,
         Container._snapshots c = below ++ [top] ->
         exists c1,
           Container.restore c = Ok c1
           /\ Container._bindingDictionary c1 = ContainerSnapshot.bindings top
           /\ Container._middleware c1 = ContainerSnapshot.middleware top
           /\ Container._snapshots c1 = below
           /\ Container.options c1 = Container.options c
           /\ Container._parentContainer c1 = Container._parentContainer c).
Proof.
  split.
  - destruct (Container._snapshots c) as [|s ss] eqn:E.
    + unfold Container.restore. rewrite E. simpl. split; reflexivity.
    + destruct (@exists_last _ (s :: ss)) as [below [top Hlast]]; [discriminate|].
      rewrite Hlast in E. rewrite (restore_top c below top E). simpl.
      split; [discriminate|]. intro H. rewrite H in Hlast. discriminate.
  - intros below top H. eexists. split; [apply restore_top; exact H|].
    simpl. repeat split.
Qed.

Lemma restore_pops_most_recent_witness :
  exists c1,
    Container.restore (Container.snapshot (Container.snapshot Samples.oneWeapon)) = Ok c1
    /\ Container._snapshots c1
       = [ContainerSnapshot.of_
            (Lookup.clone (Container._bindingDictionary Samples.oneWeapon)) None].
Proof.
  destruct (proj2 (restore_pops_most_recent
                     (Container.snapshot (Container.snapshot Samples.oneWeapon)))
              [ContainerSnapshot.of_
                 (Lookup.clone (Container._bindingDictionary Samples.oneWeapon)) None]
              (ContainerSnapshot.of_
                 (Lookup.clone (Container._bindingDictionary Samples.oneWeapon)) None)
              eq_refl)
    as [c1 [H1 [_ [_ [H4 _]]]]].
  exists c1. split; [exact H1|exact H4].
Defined.

Lemma restore_after_actions (actions : list Action) (c : Container.t) :
  Container.restore (actAll actions (Container.snapshot c))
  = Ok (Container.mk (Container.guid c) (Container.options c) (Container._middleware c)
          (Lookup.clone (Container._bindingDictionary c))
          (Container._snapshots c) (Container._parentContainer c)).
Proof.
  destruct (sameFrame_actAll actions (Container.snapshot c)) as [H1 [H2 [H3 H4]]].
  rewrite (restore_top _ (Container._snapshots c)
             (ContainerSnapshot.of_ (Lookup.clone (Container._bindingDictionary c))
                                    (Container._middleware c))).
  - rewrite H2, H3, H4. reflexivity.
  - rewrite H1. reflexivity.
Qed.

(** X5.  Whatever is done to the container after [snapshot()]: binding,
    unbinding, fluent calls on syntax objects kept from before, loading and
    unloading modules, applying middleware, [restore()] succeeds and gives
    back the registry clone and the middleware of the moment of the
    snapshot; middleware applied meanwhile is gone. *)
Theorem restore_undoes_every_action (actions : list Action) (c : Container.t) :
  exists c1,
    Container.restore (actAll actions (Container.snapshot c)) = Ok c1
    /\ Container._bindingDictionary c1 = Lookup.clone (Container._bindingDictionary c)
    /\ Container._middleware c1 = Container._middleware c
    /\ Container._snapshots c1 = Container._snapshots c
    /\ sameFrame c c1.
Proof.
  eexists. split; [apply restore_after_actions|]. simpl. repeat split.
Qed.

(** X6.  Snapshots nest: after two snapshots with any actions after each,
    the first [restore()] gives back the state of the second snapshot and
    the next [restore()], whatever was done in between, that of the first. *)
Theorem restores_undo_snapshots_in_reverse
  (after1 after2 between : list Action) (c : Container.t) :
  exists c1 c2,
    Container.restore
      (actAll after2 (Container.snapshot (actAll after1 (Container.snapshot c)))) = Ok c1
    /\ Container._bindingDictionary c1
       = Lookup.clone
           (Container._bindingDictionary (actAll after1 (Container.snapshot c)))
    /\ Container._middleware c1
       = Container._middleware (actAll after1 (Container.snapshot c))
    /\ Container.restore (actAll between c1) = Ok c2
    /\ Container._bindingDictionary c2 = Lookup.clone (Container._bindingDictionary c)
    /\ Container._middleware c2 = Container._middleware c
    /\ Container._snapshots c2 = Container._snapshots c.
Proof.
  set (inner := actAll after1 (Container.snapshot c)).
  destruct (sameFrame_actAll after1 (Container.snapshot c)) as [H1 [H2 [H3 H4]]].
  fold inner in H1, H2, H3, H4.
  eexists. eexists.
  split; [apply restore_after_actions|]. simpl.
  split; [reflexivity|]. split; [reflexivity|].
  match goal with |- Container.restore (actAll between ?x) = _ /\ _ => set (c1 := x) end.
  destruct (sameFrame_actAll between c1) as [B1 [B2 [B3 B4]]].
  split.
  - apply (restore_top _ (Container._snapshots c)
             (ContainerSnapshot.of_ (Lookup.clone (Container._bindingDictionary c))
                                    (Container._middleware c))).
    rewrite B1. unfold c1. simpl. exact H1.
  - simpl. repeat split.
Qed.

(* ================================================================== *)
(** * [bind], [unbind] and [unbindAll] at work *)
(* ================================================================== *)

Lemma find_after_remove_other (id id' : ServiceIdentifier) (l : Lookup.t) :
  id' <> id ->
  Lookup.find id' (filter (fun kv => negb (ServiceIdentifier_eqb (fst kv) id)) l)
  = Lookup.find id' l.
Proof.
  intro N. induction l as [|[k bs] rest IH]; simpl; [reflexivity|].
  destruct (ServiceIdentifier_eqb k id) eqn:E; simpl.
  - apply ServiceIdentifier_eqb_eq in E. subst k.
    apply ServiceIdentifier_eqb_neq in N. rewrite ServiceIdentifier_eqb_sym, N. exact IH.
  - destruct (ServiceIdentifier_eqb k id'); [reflexivity|exact IH].
Qed.

Lemma remove_absent_key (id : ServiceIdentifier) (l : Lookup.t) :
  Lookup.hasKey id l = false ->
  filter (fun kv => negb (ServiceIdentifier_eqb (fst kv) id)) l = l.
Proof.
  unfold Lookup.hasKey.
  induction l as [|[k bs] rest IH]; simpl; [reflexivity|].
  destruct (ServiceIdentifier_eqb k id); simpl; [discriminate|].
  intro H. rewrite (IH H). reflexivity.
Qed.

Lemma add_then_remove (id : ServiceIdentifier) (b : Binding.t) (l : Lookup.t) :
  Lookup.hasKey id l = false ->
  filter (fun kv => negb (ServiceIdentifier_eqb (fst kv) id)) (Lookup.add id b l) = l.
Proof.
  unfold Lookup.hasKey.
  induction l as [|[k bs] rest IH]; simpl.
  - rewrite ServiceIdentifier_eqb_refl. reflexivity.
  - destruct (ServiceIdentifier_eqb k id) eqn:E; simpl; [discriminate|].
    intro H. rewrite E. simpl. rewrite (IH H). reflexivity.
Qed.

Lemma setBindingDictionary_same (c : Container.t) :
  Container.setBindingDictionary (Container._bindingDictionary c) c = c.
Proof. destruct c. reflexivity. Qed.

Lemma bindingsOf_no_key (id : ServiceIdentifier) (l : Lookup.t) :
  Lookup.hasKey id l = false -> Lookup.bindingsOf id l = [].
Proof.
  rewrite hasKey_find. unfold Lookup.bindingsOf.
  destruct (Lookup.find id l); [discriminate|reflexivity].
Qed.

(** X7.  [unbind(id)] succeeds exactly when [isBound(id)]; it then removes
    every binding of [id], however many, and nothing else: the bindings of
    the other identifiers, the middleware, the snapshots and the parent are
    as before. *)
Theorem unbind_removes_one_identifier (c : Container.t) (id : ServiceIdentifier) :
  isErr (Container.unbind id c) = negb (Container.isBound id c)
  /\ (forall c1,
         Container.unbind id c = Ok c1 ->
         Lookup.bindingsOf id (Container._bindingDictionary c1) = []
         /\ Container.isBound id c1 = false
         /\ (forall id', id' <> id ->
                         Lookup.bindingsOf id' (Container._bindingDictionary c1)
                         = Lookup.bindingsOf id' (Container._bindingDictionary c)
                         /\ Container.isBound id' c1 = Container.isBound id' c)
         /\ Container._middleware c1 = Container._middleware c
         /\ sameFrame c c1).
Proof.
  unfold Container.unbind, Lookup.remove, Container.isBound.
  destruct (Lookup.hasKey id (Container._bindingDictionary c)) eqn:E; simpl.
  - split; [reflexivity|]. intros c1 H. inversion H. subst c1. clear H. simpl.
    assert (Hgone : Lookup.hasKey id
                      (filter (fun kv => negb (ServiceIdentifier_eqb (fst kv) id))
                              (Container._bindingDictionary c)) = false)
      by apply hasKey_after_remove.
    split; [apply bindingsOf_no_key; exact Hgone|]. split; [exact Hgone|].
    split; [|repeat split].
    intros id' N. unfold Lookup.bindingsOf. rewrite !hasKey_find.
    rewrite find_after_remove_other by exact N. split; reflexivity.
  - split; [reflexivity|]. intros c1 H. discriminate.
Qed.

Lemma unbind_removes_one_identifier_witness :
  exists c1,
    Container.unbind Samples.Weapon Samples.armoury = Ok c1
    /\ Lookup.bindingsOf Samples.Weapon (Container._bindingDictionary c1) = []
    /\ Container.isBound Samples.Weapon c1 = false.
Proof.
  eexists. split; [reflexivity|].
  destruct (proj2 (unbind_removes_one_identifier Samples.armoury Samples.Weapon)
              _ eq_refl) as [H1 [H2 _]].
  split; [exact H1|exact H2].
Defined.

(** X8.  Binding an identifier that was not bound and unbinding it again
    gives back the container as it was. *)
Theorem bind_then_unbind_restores (c : Container.t) (id : ServiceIdentifier) :
  Container.isBound id c = false ->
  Container.unbind id (fst (Container.bind id c)) = Ok c.
Proof.
  intro H. unfold Container.unbind, Lookup.remove.
  rewrite bind_dictionary, hasKey_add_same.
  rewrite add_then_remove by exact H.
  simpl. f_equal. destruct c. reflexivity.
Qed.

Lemma bind_then_unbind_restores_witness :
  Container.unbind Samples.Warrior (fst (Container.bind Samples.Warrior Samples.oneWeapon))
  = Ok Samples.oneWeapon.
Proof. apply bind_then_unbind_restores. reflexivity. Defined.

Lemma configure_new_binding (id : ServiceIdentifier) (calls : list BindingToSyntax.Call)
  (c : Container.t) (id' : ServiceIdentifier) :
  Lookup.bindingsOf id' (Container._bindingDictionary (mutate (MBind id calls) c))
  = Lookup.bindingsOf id' (Container._bindingDictionary c)
    ++ (if ServiceIdentifier_eqb id id'
        then [applyCalls calls (Binding.new id (defaultBindingScope c))] else []).
Proof.
  simpl. destruct (ServiceIdentifier_eqb id id') eqn:E.
  - apply ServiceIdentifier_eqb_eq in E. subst id'.
    change id with (BindingToSyntax.refIdentifier
                      (BindingToSyntax.mk id
                         (List.length (Lookup.bindingsOf id (Container._bindingDictionary c)))))
      at 1.
    rewrite bindingsOf_configure_same. simpl.
    rewrite bindingsOf_add_same, updateNth_last. reflexivity.
  - apply ServiceIdentifier_eqb_neq in E.
    rewrite bindingsOf_configure_other by (simpl; congruence).
    rewrite bindingsOf_add_other by congruence.
    rewrite app_nil_r. reflexivity.
Qed.

(** X9.  [bind(id)] followed by fluent calls on the syntax object it returns
    adds exactly one binding: it comes last under [id], after the bindings
    [id] already had, carries the container's default scope unless a call
    overrode it, and the fluent calls reach this binding and no other; the
    bindings of every other identifier are untouched. *)
Theorem bind_adds_one_binding_last
  (c : Container.t) (id : ServiceIdentifier) (calls : list BindingToSyntax.Call) :
  Lookup.bindingsOf id (Container._bindingDictionary (mutate (MBind id calls) c))
  = Lookup.bindingsOf id (Container._bindingDictionary c)
    ++ [applyCalls calls (Binding.new id (defaultBindingScope c))]
  /\ (forall id', id' <> id ->
                  Lookup.bindingsOf id' (Container._bindingDictionary (mutate (MBind id calls) c))
                  = Lookup.bindingsOf id' (Container._bindingDictionary c))
  /\ Container.isBound id (mutate (MBind id calls) c) = true
  /\ Container._middleware (mutate (MBind id calls) c) = Container._middleware c
  /\ sameFrame c (mutate (MBind id calls) c).
Proof.
  split; [|split; [|split; [|split]]].
  - rewrite configure_new_binding, ServiceIdentifier_eqb_refl. reflexivity.
  - intros id' N. rewrite configure_new_binding.
    assert (E : ServiceIdentifier_eqb id id' = false)
      by (apply ServiceIdentifier_eqb_neq; congruence).
    rewrite E. apply app_nil_r.
  - unfold Container.isBound. apply hasKey_bindingsOf_nonempty.
    rewrite configure_new_binding, ServiceIdentifier_eqb_refl.
    intro H. apply app_eq_nil in H. destruct H as [_ H]. discriminate.
  - reflexivity.
  - apply sameFrame_mutate.
Qed.

Lemma bind_adds_one_binding_last_witness :
  map Binding.constructionStrategy
    (Lookup.bindingsOf Samples.Weapon
       (Container._bindingDictionary
          (mutate (MBind Samples.Weapon [BindingToSyntax.toConstantValue Samples.shuriken])
                  Samples.oneWeapon)))
  = [Some (Constant Samples.katana); Some (Constant Samples.shuriken)]
  /\ Lookup.bindingsOf Samples.Warrior
       (Container._bindingDictionary
          (mutate (MBind Samples.Weapon [BindingToSyntax.toConstantValue Samples.shuriken])
                  Samples.oneWeapon))
     = Lookup.bindingsOf Samples.Warrior (Container._bindingDictionary Samples.oneWeapon).
Proof.
  destruct (bind_adds_one_binding_last Samples.oneWeapon Samples.Weapon
              [BindingToSyntax.toConstantValue Samples.shuriken]) as [H1 [H2 _]].
  split.
  - rewrite H1. reflexivity.
  - apply H2. discriminate.
Defined.

(** X10.  Once [bind(id)] has added a binding and no constraint was put on
    it, [isBoundTagged(id, key, value)] and [isBoundNamed(id, name)] answer
    true for every key, value and name, whatever else is bound under [id]. *)
Theorem unconstrained_binding_answers_every_probe
  (c : Container.t) (id : ServiceIdentifier) (key value named : Value) :
  Container.isBoundTagged id key value (fst (Container.bind id c)) = Ok true
  /\ Container.isBoundNamed id named (fst (Container.bind id c)) = Ok true.
Proof.
  unfold Container.isBoundNamed, Container.isBoundTagged, Lookup.get.
  rewrite bind_dictionary, find_add_same. simpl.
  rewrite !existsb_app. simpl. rewrite !orb_true_r. split; reflexivity.
Qed.

Lemma registries_without_parent (c : Container.t) :
  Container._parentContainer c = None ->
  Container.registries c = [Container._bindingDictionary c].
Proof. destruct c. simpl. intro H. subst. reflexivity. Qed.

(** X11.  After [unbindAll()] no identifier is bound: [isBound] is false and
    [unbind] fails for every identifier, and on a container without parent
    and without middleware [get] and [getAll] fail with the not-registered
    error; the snapshots taken before are kept. *)
Theorem unbindAll_unbinds_everything (c : Container.t) (id : ServiceIdentifier) :
  Container.isBound id (Container.unbindAll c) = false
  /\ Container.unbind id (Container.unbindAll c)
     = Err (CANNOT_UNBIND (getServiceIdentifierAsString id))
  /\ Container._snapshots (Container.unbindAll c) = Container._snapshots c
  /\ (Container._parentContainer c = None ->
      Container._middleware c = None ->
      Container.get id (Container.unbindAll c) = Err (NOT_REGISTERED id)
      /\ Container.getAll id (Container.unbindAll c) = Err (NOT_REGISTERED id)).
Proof.
  split; [reflexivity|]. split; [reflexivity|]. split; [reflexivity|].
  intros Hp Hm.
  assert (Hreg : Container.registries (Container.unbindAll c) = [Lookup.empty]).
  { apply (registries_without_parent (Container.unbindAll c)). exact Hp. }
  split.
  - rewrite get_by_cardinality by exact Hm.
    unfold matching. rewrite Hreg. reflexivity.
  - rewrite getAll_by_candidates by exact Hm.
    unfold candidatesAll. rewrite Hreg. reflexivity.
Qed.

Lemma unbindAll_unbinds_everything_witness :
  Container.get Samples.Weapon (Container.unbindAll Samples.armoury)
  = Err (NOT_REGISTERED Samples.Weapon).
Proof.
  apply (proj2 (proj2 (proj2 (unbindAll_unbinds_everything Samples.armoury Samples.Weapon)))
           eq_refl eq_refl).
Defined.

(* ================================================================== *)
(** * Modules *)
(* ================================================================== *)

Lemma runRegistry_defaultBindingScope (moduleId : string)
  (registry : list (ServiceIdentifier * list BindingToSyntax.Call)) (c : Container.t) :
  defaultBindingScope (Container.runRegistry moduleId registry c) = defaultBindingScope c.
Proof. unfold defaultBindingScope. rewrite runRegistry_options. reflexivity. Qed.

Lemma load_bindingsOf (modules : list ContainerModule.t) (c : Container.t)
  (id : ServiceIdentifier) :
  Lookup.bindingsOf id (Container._bindingDictionary (Container.load modules c))
  = Lookup.bindingsOf id (Container._bindingDictionary c)
    ++ loadedBindings (defaultBindingScope c) id modules.
Proof.
  unfold Container.load, loadedBindings. revert c.
  induction modules as [|m modules IH]; intro c; simpl.
  - rewrite app_nil_r. reflexivity.
  - rewrite IH, runRegistry_bindingsOf, runRegistry_defaultBindingScope.
    rewrite <- app_assoc. reflexivity.
Qed.

Lemma applyCalls_serviceIdentifier (calls : list BindingToSyntax.Call) (b : Binding.t) :
  Binding.serviceIdentifier (applyCalls calls b) = Binding.serviceIdentifier b.
Proof.
  unfold applyCalls. revert b.
  induction calls as [|call calls IH]; intro b; simpl; [reflexivity|].
  rewrite IH. apply applyCall_serviceIdentifier.
Qed.

Lemma loadedBindings_origin (scope : BindingScopeEnum.t) (id : ServiceIdentifier)
  (modules : list ContainerModule.t) (b : Binding.t) :
  In b (loadedBindings scope id modules) ->
  Binding.serviceIdentifier b = id
  /\ exists module, In module modules
                    /\ Binding.moduleId b = Some (ContainerModule.guid module).
Proof.
  unfold loadedBindings. intro H. apply in_flat_map in H.
  destruct H as [module [Hmod Hb]]. apply in_map_iff in Hb.
  destruct Hb as [entry [Hb Hentry]]. subst b.
  unfold entriesFor in Hentry. apply filter_In in Hentry. destruct Hentry as [_ Hid].
  apply ServiceIdentifier_eqb_eq in Hid.
  split.
  - unfold moduleBinding. rewrite applyCalls_serviceIdentifier. exact Hid.
  - exists module. split; [exact Hmod|].
    unfold moduleBinding. rewrite applyCalls_moduleId. reflexivity.
Qed.

(** X12.  [load(...modules)] leaves what was bound as it is and appends,
    under each identifier, one binding per [bind] call that the modules'
    registry callbacks make for it, in the order of the modules and of the
    calls; each of them carries the id of its module. *)
Theorem load_appends_tagged_bindings
  (modules : list ContainerModule.t) (c : Container.t) (id : ServiceIdentifier) :
  Lookup.bindingsOf id (Container._bindingDictionary (Container.load modules c))
  = Lookup.bindingsOf id (Container._bindingDictionary c)
    ++ loadedBindings (defaultBindingScope c) id modules
  /\ List.length (loadedBindings (defaultBindingScope c) id modules)
     = List.length (flat_map (fun module => entriesFor id (ContainerModule.registry module))
                             modules)
  /\ (forall b, In b (loadedBindings (defaultBindingScope c) id modules) ->
                Binding.serviceIdentifier b = id
                /\ exists module, In module modules
                                  /\ Binding.moduleId b = Some (ContainerModule.guid module))
  /\ Container._middleware (Container.load modules c) = Container._middleware c
  /\ sameFrame c (Container.load modules c).
Proof.
  split; [apply load_bindingsOf|]. split; [|split; [|split]].
  - unfold loadedBindings. induction modules as [|m modules IH]; simpl; [reflexivity|].
    rewrite !length_app, length_map, IH. reflexivity.
  - intros b Hb. exact (loadedBindings_origin _ _ _ _ Hb).
  - unfold Container.load. revert c.
    induction modules as [|m modules IH]; intro c; simpl; [reflexivity|].
    rewrite IH, runRegistry_fold. generalize (ContainerModule.registry m) as entries.
    intro entries. revert c. induction entries as [|e entries IHe]; intro c; simpl;
      [reflexivity|].
    rewrite IHe. reflexivity.
  - apply sameFrame_load.
Qed.

Lemma removeByCondition_twice (p q : Binding.t -> bool) (l : Lookup.t) :
  Lookup.removeByCondition q (Lookup.removeByCondition p l)
  = Lookup.removeByCondition (fun b => p b || q b) l.
Proof.
  unfold Lookup.removeByCondition. rewrite map_map. apply map_ext.
  intros [k bs]. simpl. f_equal.
  induction bs as [|b bs IH]; simpl; [reflexivity|].
  destruct (p b); simpl; [exact IH|].
  destruct (q b); simpl; [exact IH|]. rewrite IH. reflexivity.
Qed.

Lemma removeByCondition_ext (p q : Binding.t -> bool) (l : Lookup.t) :
  (forall b, p b = q b) -> Lookup.removeByCondition p l = Lookup.removeByCondition q l.
Proof.
  intro H. unfold Lookup.removeByCondition. apply map_ext.
  intros [k bs]. simpl. f_equal. apply filter_ext. intro b. rewrite H. reflexivity.
Qed.

Lemma removeByCondition_none (l : Lookup.t) :
  Lookup.removeByCondition (fun _ => false) l = l.
Proof.
  unfold Lookup.removeByCondition.
  transitivity (map (fun kv : ServiceIdentifier * list Binding.t => kv) l);
    [|apply map_id].
  apply map_ext. intros [k bs]. simpl. f_equal.
  induction bs as [|b bs IHb]; simpl; [reflexivity|]. rewrite IHb. reflexivity.
Qed.

(** Unloading several modules removes, in one sweep, the bindings that carry
    the id of any of them. *)
Lemma unload_at_once (modules : list ContainerModule.t) (c : Container.t) :
  Container.unload modules c
  = Container.setBindingDictionary
      (Lookup.removeByCondition (fromModules modules) (Container._bindingDictionary c)) c.
Proof.
  unfold Container.unload. revert c.
  induction modules as [|m modules IH]; intro c; simpl.
  - change (fromModules []) with (fun _ : Binding.t => false).
    rewrite removeByCondition_none. symmetry. apply setBindingDictionary_same.
  - rewrite IH. simpl. rewrite removeByCondition_twice. destruct c. reflexivity.
Qed.

(** X13.  [unload(...modules)] removes, under every identifier, exactly the
    bindings that carry the id of one of the modules and keeps the others in
    order; a binding made with [bind] directly carries no module id and is
    never removed; unloading the same modules again changes nothing. *)
Theorem unload_removes_exactly_tagged
  (modules : list ContainerModule.t) (c : Container.t) (id : ServiceIdentifier) :
  Lookup.bindingsOf id (Container._bindingDictionary (Container.unload modules c))
  = filter (fun b => negb (fromModules modules b))
           (Lookup.bindingsOf id (Container._bindingDictionary c))
  /\ (forall b, In b (Lookup.bindingsOf id (Container._bindingDictionary c)) ->
                Binding.moduleId b = None ->
                In b (Lookup.bindingsOf id
                        (Container._bindingDictionary (Container.unload modules c))))
  /\ Container.unload modules (Container.unload modules c) = Container.unload modules c
  /\ Container._middleware (Container.unload modules c) = Container._middleware c
  /\ sameFrame c (Container.unload modules c).
Proof.
  assert (H1 : Lookup.bindingsOf id
                 (Container._bindingDictionary (Container.unload modules c))
               = filter (fun b => negb (fromModules modules b))
                        (Lookup.bindingsOf id (Container._bindingDictionary c))).
  { rewrite unload_at_once. simpl. apply bindingsOf_removeByCondition. }
  split; [exact H1|]. split; [|split; [|split]].
  - intros b Hin Hnone. rewrite H1. apply filter_In. split; [exact Hin|].
    apply negb_true_iff. unfold fromModules.
    destruct (existsb _ modules) eqn:E; [|reflexivity].
    apply existsb_exists in E. destruct E as [m [_ Hm]].
    unfold Binding.hasModuleId in Hm. rewrite Hnone in Hm. discriminate.
  - rewrite (unload_at_once modules (Container.unload modules c)).
    rewrite (unload_at_once modules c). simpl.
    rewrite removeByCondition_twice.
    rewrite (removeByCondition_ext _ (fromModules modules)).
    + destruct c. reflexivity.
    + intro b. apply orb_diag.
  - rewrite unload_at_once. reflexivity.
  - apply sameFrame_unload.
Qed.

Lemma unload_removes_exactly_tagged_witness :
  map Binding.constructionStrategy
    (Lookup.bindingsOf Samples.Weapon
       (Container._bindingDictionary
          (Container.unload [Samples.weapons]
             (Container.load [Samples.weapons] Samples.oneWeapon))))
  = [Some (Constant Samples.katana)].
Proof.
  rewrite (proj1 (unload_removes_exactly_tagged [Samples.weapons]
                    (Container.load [Samples.weapons] Samples.oneWeapon) Samples.Weapon)).
  reflexivity.
Defined.

Lemma filter_loadedBindings (scope : BindingScopeEnum.t) (id : ServiceIdentifier)
  (modules : list ContainerModule.t) :
  filter (fun b => negb (fromModules modules b)) (loadedBindings scope id modules) = [].
Proof.
  apply filter_none. apply Forall_forall. intros b Hb.
  destruct (loadedBindings_origin _ _ _ _ Hb) as [_ [m [Hm Htag]]].
  apply negb_false_iff. unfold fromModules. apply existsb_exists.
  exists m. split; [exact Hm|].
  unfold Binding.hasModuleId. rewrite Htag. apply String.eqb_refl.
Qed.

(** X14.  Loading modules and unloading them again is a round trip on the
    bindings of every identifier under which the container held no binding
    with one of their ids before. *)
Theorem load_then_unload_round_trip
  (modules : list ContainerModule.t) (c : Container.t) (id : ServiceIdentifier) :
  Forall (fun b => fromModules modules b = false)
         (Lookup.bindingsOf id (Container._bindingDictionary c)) ->
  Lookup.bindingsOf id
    (Container._bindingDictionary (Container.unload modules (Container.load modules c)))
  = Lookup.bindingsOf id (Container._bindingDictionary c).
Proof.
  intro H. rewrite unload_at_once. simpl.
  rewrite bindingsOf_removeByCondition, load_bindingsOf, filter_app.
  rewrite filter_loadedBindings, app_nil_r.
  apply filter_all. revert H. apply Forall_impl. intros b Hb. rewrite Hb. reflexivity.
Qed.

Lemma load_then_unload_round_trip_witness :
  Lookup.bindingsOf Samples.Weapon
    (Container._bindingDictionary
       (Container.unload [Samples.weapons]
          (Container.load [Samples.weapons] Samples.armoury)))
  = Lookup.bindingsOf Samples.Weapon (Container._bindingDictionary Samples.armoury).
Proof.
  apply load_then_unload_round_trip. repeat constructor.
Defined.

Lemma filter_other_module (scope : BindingScopeEnum.t) (id : ServiceIdentifier)
  (unloaded kept : ContainerModule.t) :
  ContainerModule.guid unloaded <> ContainerModule.guid kept ->
  filter (fun b => negb (fromModules [unloaded] b)) (loadedBindings scope id [kept])
  = loadedBindings scope id [kept].
Proof.
  intro N. apply filter_all. apply Forall_forall. intros b Hb.
  destruct (loadedBindings_origin _ _ _ _ Hb) as [_ [m [Hm Htag]]].
  destruct Hm as [Hm|[]]. subst m.
  unfold fromModules, Binding.hasModuleId. simpl. rewrite Htag, orb_false_r.
  apply negb_true_iff. apply String.eqb_neq. congruence.
Qed.

(** X15.  Unloading one module leaves the bindings of another: after loading
    two modules with different ids, in either order, and unloading one of
    them, every identifier has the bindings it would have had if only the
    other had been loaded (given that the container held no binding with
    the unloaded module's id before). *)
Theorem unload_spares_other_modules
  (unloaded kept : ContainerModule.t) (c : Container.t) (id : ServiceIdentifier) :
  ContainerModule.guid unloaded <> ContainerModule.guid kept ->
  Forall (fun b => fromModules [unloaded] b = false)
         (Lookup.bindingsOf id (Container._bindingDictionary c)) ->
  Lookup.bindingsOf id
    (Container._bindingDictionary
       (Container.unload [unloaded] (Container.load [unloaded; kept] c)))
  = Lookup.bindingsOf id (Container._bindingDictionary (Container.load [kept] c))
  /\ Lookup.bindingsOf id
       (Container._bindingDictionary
          (Container.unload [unloaded] (Container.load [kept; unloaded] c)))
     = Lookup.bindingsOf id (Container._bindingDictionary (Container.load [kept] c)).
Proof.
  intros N H.
  assert (Hold : filter (fun b => negb (fromModules [unloaded] b))
                        (Lookup.bindingsOf id (Container._bindingDictionary c))
                 = Lookup.bindingsOf id (Container._bindingDictionary c)).
  { apply filter_all. revert H. apply Forall_impl. intros b Hb. rewrite Hb. reflexivity. }
  assert (Hsplit : forall ms1 ms2, loadedBindings (defaultBindingScope c) id (ms1 ++ ms2)
                                   = loadedBindings (defaultBindingScope c) id ms1
                                     ++ loadedBindings (defaultBindingScope c) id ms2).
  { intros ms1 ms2. unfold loadedBindings. apply flat_map_app. }
  assert (Hset : forall l c0,
             Container._bindingDictionary (Container.setBindingDictionary l c0) = l)
    by reflexivity.
  split; rewrite unload_at_once, Hset;
    rewrite bindingsOf_removeByCondition, !load_bindingsOf, filter_app, Hold.
  - change [unloaded; kept] with ([unloaded] ++ [kept]).
    rewrite Hsplit, filter_app, filter_loadedBindings, filter_other_module by exact N.
    reflexivity.
  - change [kept; unloaded] with ([kept] ++ [unloaded]).
    rewrite Hsplit, filter_app, filter_loadedBindings, filter_other_module by exact N.
    rewrite app_nil_r. reflexivity.
Qed.

Lemma unload_spares_other_modules_witness :
  Lookup.bindingsOf Samples.Weapon
    (Container._bindingDictionary
       (Container.unload [Samples.weapons]
          (Container.load [Samples.weapons; Samples.warriors] Samples.oneWeapon)))
  = Lookup.bindingsOf Samples.Weapon
      (Container._bindingDictionary (Container.load [Samples.warriors] Samples.oneWeapon)).
Proof.
  apply (proj1 (unload_spares_other_modules Samples.weapons Samples.warriors
                  Samples.oneWeapon Samples.Weapon
                  ltac:(discriminate) ltac:(repeat constructor))).
Defined.

(* ================================================================== *)
(** * [merge] at work *)
(* ================================================================== *)

Lemma getBindings_single (avoid : bool) (target : Target.t) (l : Lookup.t) :
  Planner.getBindings avoid target [l] = Planner.activeBindings avoid target l.
Proof. simpl. destruct (Planner.activeBindings avoid target l); reflexivity. Qed.

Lemma filter_clones (target : Target.t) (bs : list Binding.t) :
  filter (fun b => Binding.constraint b target) (map Binding.clone bs)
  = map Binding.clone (filter (fun b => Binding.constraint b target) bs).
Proof.
  induction bs as [|b bs IH]; simpl; [reflexivity|].
  destruct (Binding.constraint b target); simpl; rewrite IH; reflexivity.
Qed.

Lemma merged_is_plain (g : string) (a b m : Container.t) (rest : Lookup.t * Lookup.t) :
  Container.merge g a b = Ok (m, rest) ->
  Container._middleware m = None
  /\ Container._snapshots m = []
  /\ Container._parentContainer m = None
  /\ Container.guid m = g
  /\ ContainerOptions.defaultScope (Container.options m)
     = BindingScopeEnum.value BindingScopeEnum.Transient
  /\ Container._bindingDictionary m
     = fold_left addClone (Lookup.allBindings (Container._bindingDictionary b))
         (fold_left addClone (Lookup.allBindings (Container._bindingDictionary a))
                    Lookup.empty).
Proof.
  unfold Container.merge. rewrite new_without_options. unfold bindR.
  rewrite (copyDictionary_fold (Container._bindingDictionary a)).
  rewrite (copyDictionary_fold (Container._bindingDictionary b)).
  intro H. inversion H. subst. simpl. repeat split.
Qed.

(** X16.  [merge] does not reconcile the two registries: when [a] and [b]
    each have a binding for [id] that matches the request of [get(id)], the
    merged container has both and [get(id)] on it fails as ambiguous, also
    when [a] and [b] are the same container. *)
Theorem merge_makes_shared_identifiers_ambiguous
  (g : string) (a b m : Container.t) (rest : Lookup.t * Lookup.t)
  (id : ServiceIdentifier) (ba bb : Binding.t) :
  wellKeyed (Container._bindingDictionary a) ->
  wellKeyed (Container._bindingDictionary b) ->
  In ba (Lookup.bindingsOf id (Container._bindingDictionary a)) ->
  Binding.constraint ba (getTarget id) = true ->
  In bb (Lookup.bindingsOf id (Container._bindingDictionary b)) ->
  Binding.constraint bb (getTarget id) = true ->
  Container.merge g a b = Ok (m, rest) ->
  Container.get id m = Err (AMBIGUOUS_MATCH id).
Proof.
  intros Ha Hb Hina Hca Hinb Hcb Hm.
  destruct (merged_is_plain _ _ _ _ _ Hm) as [Hmw [_ [Hp [_ [_ Hd]]]]].
  assert (Hbs : Lookup.bindingsOf id (Container._bindingDictionary m)
                = map Binding.clone (Lookup.bindingsOf id (Container._bindingDictionary a))
                  ++ map Binding.clone
                       (Lookup.bindingsOf id (Container._bindingDictionary b))).
  { rewrite Hd, !bindingsOf_fold_addClone. simpl.
    fold (bindingsFor id (Container._bindingDictionary a)).
    fold (bindingsFor id (Container._bindingDictionary b)).
    rewrite !wellKeyed_bindingsFor by assumption. reflexivity. }
  assert (Hmatch : matching id m
                   = map Binding.clone
                       (filter (fun b0 => Binding.constraint b0 (getTarget id))
                               (Lookup.bindingsOf id (Container._bindingDictionary a)))
                     ++ map Binding.clone
                          (filter (fun b0 => Binding.constraint b0 (getTarget id))
                                  (Lookup.bindingsOf id (Container._bindingDictionary b)))).
  { unfold matching. rewrite (registries_without_parent m Hp).
    rewrite getBindings_single. unfold Planner.activeBindings.
    change (Target.serviceIdentifier (getTarget id)) with id.
    rewrite Hbs, filter_app, !filter_clones. reflexivity. }
  assert (Hne : forall x bs, In x bs -> Binding.constraint x (getTarget id) = true ->
                             exists y ys,
                               map Binding.clone
                                   (filter (fun b0 => Binding.constraint b0 (getTarget id)) bs)
                               = y :: ys).
  { intros x bs Hin Hc.
    assert (Hf : In x (filter (fun b0 => Binding.constraint b0 (getTarget id)) bs))
      by (apply filter_In; split; assumption).
    destruct (filter _ bs) as [|y ys]; [contradiction|].
    simpl. eexists. eexists. reflexivity. }
  destruct (Hne _ _ Hina Hca) as [ya [yas Ea]].
  destruct (Hne _ _ Hinb Hcb) as [yb [ybs Eb]].
  rewrite get_by_cardinality by exact Hmw.
  rewrite Hmatch, Ea, Eb.
  destruct yas; reflexivity.
Qed.

Lemma merge_makes_shared_identifiers_ambiguous_witness :
  exists m rest,
    Container.merge "c3" Samples.oneWeapon Samples.oneWeapon = Ok (m, rest)
    /\ Container.get Samples.Weapon Samples.oneWeapon = Ok (Single Samples.katana)
    /\ Container.get Samples.Weapon m = Err (AMBIGUOUS_MATCH Samples.Weapon).
Proof.
  eexists. eexists. split; [reflexivity|]. split; [reflexivity|].
  assert (Hw : wellKeyed (Container._bindingDictionary Samples.oneWeapon)).
  { split; simpl; repeat constructor. intros []. }
  eapply (merge_makes_shared_identifiers_ambiguous "c3" Samples.oneWeapon Samples.oneWeapon
            _ _ Samples.Weapon _ _ Hw Hw (or_introl eq_refl) eq_refl
            (or_introl eq_refl) eq_refl).
  reflexivity.
Defined.

(** X17.  The merged container is a new container with the options of
    [new Container()]: its guid is new, it has no parent, no middleware and
    no snapshot to restore, and [bind] on it makes Transient bindings, also
    when both sources were constructed with [defaultScope] Singleton; the
    clones keep the scope of the bindings they were cloned from. *)
Theorem merge_starts_from_default_container
  (g : string) (a b m : Container.t) (rest : Lookup.t * Lookup.t)
  (id : ServiceIdentifier) :
  Container.merge g a b = Ok (m, rest) ->
  defaultBindingScope m = BindingScopeEnum.Transient
  /\ (exists binding,
         Lookup.bindingsOf id (Container._bindingDictionary (fst (Container.bind id m)))
         = Lookup.bindingsOf id (Container._bindingDictionary m) ++ [binding]
         /\ Binding.scope binding = BindingScopeEnum.Transient)
  /\ Container.restore m = Err NO_MORE_SNAPSHOTS_AVAILABLE
  /\ Container.parent m = None
  /\ Container._middleware m = None
  /\ map Binding.scope (Lookup.bindingsOf id (Container._bindingDictionary m))
     = map Binding.scope (bindingsFor id (Container._bindingDictionary a))
       ++ map Binding.scope (bindingsFor id (Container._bindingDictionary b)).
Proof.
  intro Hm. destruct (merged_is_plain _ _ _ _ _ Hm) as [Hmw [Hs [Hp [_ [Ho Hd]]]]].
  assert (Hscope : defaultBindingScope m = BindingScopeEnum.Transient).
  { unfold defaultBindingScope. rewrite Ho. reflexivity. }
  split; [exact Hscope|]. split; [|split; [|split; [|split]]].
  - eexists. rewrite bind_dictionary, bindingsOf_add_same.
    fold (defaultBindingScope m). rewrite Hscope. split; reflexivity.
  - unfold Container.restore. rewrite Hs. reflexivity.
  - exact Hp.
  - exact Hmw.
  - rewrite Hd, !bindingsOf_fold_addClone. simpl.
    rewrite map_app, !map_map. reflexivity.
Qed.

Lemma merge_starts_from_default_container_witness :
  exists m rest,
    Container.merge "c6" Samples.singletons Samples.singletons = Ok (m, rest)
    /\ defaultBindingScope Samples.singletons = BindingScopeEnum.Singleton
    /\ defaultBindingScope m = BindingScopeEnum.Transient.
Proof.
  eexists. eexists. split; [reflexivity|]. split; [reflexivity|].
  refine (proj1 (merge_starts_from_default_container "c6" Samples.singletons
                   Samples.singletons _ _ Samples.Weapon _)).
  reflexivity.
Defined.

(* ================================================================== *)
(** * The constructor and [createChild] at work *)
(* ================================================================== *)

(** X18.  The constructor tells what is wrong with its argument: one that is
    not of type object is reported as "must be an object", an object or
    array whose [defaultScope] is missing or is anything but Singleton or
    Transient as "invalid default scope", and [null] passes the type test
    and raises the runtime's TypeError; in every other case the container
    is empty, without middleware, snapshots or parent, and holds the scope
    it was given, Transient without argument. *)
Theorem constructor_reports_what_is_wrong (g : string) (opts : Value) :
  (Container.new g opts = Err KERNEL_OPTIONS_MUST_BE_AN_OBJECT
   <-> opts <> VUndefined /\ typeof opts <> "object")
  /\ (Container.new g opts = Err KERNEL_OPTIONS_INVALID_DEFAULT_SCOPE
      <-> isObject opts = true /\ isSingletonOrTransient (defaultScopeField opts) = false)
  /\ ((exists msg, Container.new g opts = Err (TypeError msg)) <-> opts = VNull)
  /\ (forall c,
         Container.new g opts = Ok c ->
         c = Container.mk g
               (ContainerOptions.mk
                  (if strictEquals opts VUndefined
                   then BindingScopeEnum.value BindingScopeEnum.Transient
                   else defaultScopeField opts))
               None Lookup.empty [] None).
Proof.
  unfold Container.new, isSingletonOrTransient.
  destruct opts; simpl;
    try (repeat split; try discriminate; try congruence;
         try (intros [? ?]; congruence); try (intros [? ?]; discriminate);
         try (intros [? ?]; exfalso; auto; fail);
         try (intros; split; congruence);
         try (intros; eexists; reflexivity);
         try (intros c H; inversion H; reflexivity); fail).
  destruct (lookupProp "defaultScope" props) eqn:E; simpl;
    try (repeat split; try discriminate; try congruence;
         try (intros [? ?]; congruence); try (intros [? ?]; discriminate);
         fail).
  destruct (String.eqb s "Singleton") eqn:E1; simpl;
    [|destruct (String.eqb s "Transient") eqn:E2; simpl];
    repeat split; try discriminate; try congruence;
      try (intros [? ?]; congruence); try (intros [? ?]; discriminate);
      try (intros c H; inversion H; reflexivity).
Qed.

Lemma constructor_reports_what_is_wrong_witness :
  Container.new "c1" (VString "Singleton") = Err KERNEL_OPTIONS_MUST_BE_AN_OBJECT
  /\ Container.new "c1" (VObject 0 [("defaultScope", VString "Request")])
     = Err KERNEL_OPTIONS_INVALID_DEFAULT_SCOPE.
Proof.
  split.
  - apply (proj1 (constructor_reports_what_is_wrong "c1" (VString "Singleton"))).
    split; discriminate.
  - apply (proj1 (proj2 (constructor_reports_what_is_wrong "c1"
                           (VObject 0 [("defaultScope", VString "Request")])))).
    split; reflexivity.
Defined.

Lemma selectBindings_skip_empty (avoid : bool) (target : Target.t) (chain : Registries) :
  Planner.selectBindings avoid target (Lookup.empty :: chain)
  = Planner.selectBindings avoid target chain.
Proof.
  unfold Planner.selectBindings. simpl.
  assert (H : Planner.activeBindings avoid target Lookup.empty = [])
    by (destruct avoid; reflexivity).
  rewrite H. reflexivity.
Qed.

Lemma planRequest_skip_empty (chain : Registries) (fuel : nat) :
  forall (path : list ServiceIdentifier) (avoid : bool) (target : Target.t),
    Planner.planRequest fuel (Lookup.empty :: chain) path avoid target
    = Planner.planRequest fuel chain path avoid target.
Proof.
  induction fuel as [|fuel IH]; intros path avoid target; simpl; [reflexivity|].
  destruct (Planner.onPath (Target.serviceIdentifier target) path); [reflexivity|].
  rewrite selectBindings_skip_empty.
  destruct (Planner.selectBindings avoid target chain) as [bs|e]; [|reflexivity].
  cbn [bindR]. f_equal. apply mapR_ext. intro b.
  destruct (Binding.constructionStrategy b) as [[v|make|impl]|]; try reflexivity.
  f_equal. apply mapR_ext. intro dep. apply IH.
Qed.

Lemma _planAndResolve_skip_empty (chain : Registries) (args : NextArgs.t) :
  Container._planAndResolve (Lookup.empty :: chain) args
  = Container._planAndResolve chain args.
Proof.
  unfold Container._planAndResolve, Planner.plan.
  change (Planner.allKeys (Lookup.empty :: chain)) with (Planner.allKeys chain).
  rewrite planRequest_skip_empty. reflexivity.
Qed.

(** X19.  [createChild()] gives a container of its own: nothing is bound in
    it, it has no snapshot to restore and no middleware, and its default
    scope is Transient whatever the parent's; its parent is the container
    it was created from.  A get-style call on it plans and resolves over
    the parent's registries, without passing through the parent's
    middleware. *)
Theorem createChild_starts_empty_and_resolves_from_parent
  (g : string) (p child : Container.t) (id : ServiceIdentifier)
  (avoid multi : bool) (targetType : TargetTypeEnum.t) (key value : Value) :
  Container.createChild g p = Ok child ->
  Container.parent child = Some p
  /\ Container.isBound id child = false
  /\ Container.restore child = Err NO_MORE_SNAPSHOTS_AVAILABLE
  /\ defaultBindingScope child = BindingScopeEnum.Transient
  /\ Container._get avoid multi targetType id key value child
     = Container._planAndResolve (Container.registries p)
         (bundle avoid multi targetType id key value).
Proof.
  unfold Container.createChild. rewrite new_without_options. simpl.
  intro H. inversion H. subst child. clear H.
  split; [reflexivity|]. split; [reflexivity|]. split; [reflexivity|].
  split; [reflexivity|].
  rewrite _get_plain by reflexivity.
  change (Container.registries (Container.setParent (Some p) _))
    with (Lookup.empty :: Container.registries p).
  apply _planAndResolve_skip_empty.
Qed.

Lemma createChild_starts_empty_and_resolves_from_parent_witness :
  exists child,
    Container.createChild "c2"
      (Container.applyMiddleware [fun (next : Next) => fun this args => Ok (Single VNull)]
                                 Samples.oneWeapon) = Ok child
    /\ Container.get Samples.Weapon
         (Container.applyMiddleware [fun (next : Next) => fun this args => Ok (Single VNull)]
                                    Samples.oneWeapon)
       = Err INVALID_MIDDLEWARE_RETURN
    /\ Container.get Samples.Weapon child = Ok (Single Samples.katana).
Proof.
  eexists. split; [reflexivity|]. split; [reflexivity|].
  unfold Container.get.
  rewrite (proj2 (proj2 (proj2 (proj2
             (createChild_starts_empty_and_resolves_from_parent "c2" _ _
                Samples.Weapon false false TargetTypeEnum.Variable_ VUndefined VUndefined
                eq_refl))))).
  reflexivity.
Defined.

(* ================================================================== *)
(** * [get] and [getAll] on one binding *)
(* ================================================================== *)

(** X20.  When the container's own registry has exactly one binding for
    [id] and its constraint accepts the request, [get(id)] and [getAll(id)]
    agree: [getAll] returns the one-element sequence of the value [get]
    returns, and fails with the same error when [get] fails. *)
Theorem get_and_getAll_agree_on_one_binding
  (c : Container.t) (id : ServiceIdentifier) (b : Binding.t) :
  Container._middleware c = None ->
  Lookup.bindingsOf id (Container._bindingDictionary c) = [b] ->
  Binding.constraint b (getTarget id) = true ->
  (forall v, Container.get id c = Ok (Single v)
             <-> Container.getAll id c = Ok (Multiple [v]))
  /\ (forall e, Container.get id c = Err e <-> Container.getAll id c = Err e).
Proof.
  intros Hm Hb Hc.
  assert (Hreg : exists parents,
             Container.registries c = Container._bindingDictionary c :: parents).
  { destruct c. simpl. eexists. reflexivity. }
  destruct Hreg as [parents Hreg].
  assert (Hmatch : matching id c = [b]).
  { unfold matching. rewrite Hreg. simpl. unfold Planner.activeBindings.
    change (Target.serviceIdentifier (getTarget id)) with id.
    rewrite Hb. simpl. rewrite Hc. reflexivity. }
  assert (Hcand : candidatesAll id c = [b]).
  { unfold candidatesAll. rewrite Hreg. simpl. unfold Planner.activeBindings.
    change (Target.serviceIdentifier (getAllTarget id)) with id.
    rewrite Hb. reflexivity. }
  rewrite get_by_cardinality by exact Hm.
  rewrite getAll_by_candidates by exact Hm.
  rewrite Hmatch, Hcand. cbn [mapR bindR].
  rewrite <- planMatched_then_resolve.
  destruct (planMatched id c b) as [m|e0]; cbn [bindR mapR].
  - destruct (Resolver.resolveMatched m) as [v0|e0]; cbn [bindR].
    + split.
      * intro v. split; intro H; inversion H; reflexivity.
      * intro e. split; discriminate.
    + split.
      * intro v. split; discriminate.
      * intro e. split; intro H; inversion H; reflexivity.
  - split.
    + intro v. split; discriminate.
    + intro e. split; intro H; inversion H; reflexivity.
Qed.

Lemma get_and_getAll_agree_on_one_binding_witness :
  Container.getAll Samples.Warrior Samples.dojo
  = Ok (Multiple [VObject 3 [("weapon", Samples.katana)]]).
Proof.
  apply (proj1 (get_and_getAll_agree_on_one_binding Samples.dojo Samples.Warrior
                  (applyCalls [BindingToSyntax.to Samples.Ninja]
                     (Binding.new Samples.Warrior BindingScopeEnum.Transient))
                  eq_refl eq_refl eq_refl)).
  reflexivity.
Defined.

(* ================================================================== *)
(** * The tagged and named accessors *)
(* ================================================================== *)








Lemma load_appends_tagged_bindings_witness :
  map Binding.moduleId
    (Lookup.bindingsOf Samples.Weapon
       (Container._bindingDictionary
          (Container.load [Samples.weapons; Samples.warriors] Samples.oneWeapon)))
  = [None; Some "A"; Some "B"]
  /\ Binding.serviceIdentifier
       (moduleBinding BindingScopeEnum.Transient "A"
          (Samples.Weapon, [BindingToSyntax.toConstantValue Samples.shuriken]))
     = Samples.Weapon.
Proof.
  destruct (load_appends_tagged_bindings [Samples.weapons; Samples.warriors]
              Samples.oneWeapon Samples.Weapon) as [H1 [_ [H3 _]]].
  split.
  - rewrite H1. reflexivity.
  - apply (H3 (moduleBinding BindingScopeEnum.Transient "A"
                 (Samples.Weapon, [BindingToSyntax.toConstantValue Samples.shuriken]))).
    left. reflexivity.
Defined.
